(** * Chrome DevTools reverse proxy (reverse-proxy.go): model and properties

    The proxy sits in front of a Chromium remote-debugging port.  It rewrites
    the WebSocket URLs of the discovery documents ([/json/version], [/json])
    from the internal address to the externally visible one and forwards
    everything else to the target.

    Go strings are byte strings: they are modelled by [string] (a list of
    8-bit [ascii]).  [int64] counters are [Z] with the wrap-around written
    out.  Values of type [interface{}] and [map[string]interface{}] are a
    nested inductive over stdpp's [gmap].  A handler is a function from the
    client struct and the request to the new client struct and the response;
    what the target, the JSON codec and the clock answer during the request
    is its environment [Env], which also holds the one library table the
    model does not spell out (Unicode lower-casing).  Log output is not
    modelled. *)

From Stdlib Require Import ZArith String Ascii List Lia Bool.
From Stdlib Require Floats.PrimFloat.
From Stdlib Require Numbers.Cyclic.Int63.Uint63.
From stdpp Require Import base option gmap strings list.

Local Open Scope string_scope.

(** ** The parts of Go's [strings], [strconv] and [net] the proxy calls *)

Module GoStrings.

(** [s[n:]] and [s[:n]] (the caller keeps [n <= len(s)]). *)
Fixpoint drop (n : nat) (s : string) : string :=
  match n, s with
  | S n', String _ s' => drop n' s'
  | _, _ => s
  end.

Fixpoint take (n : nat) (s : string) : string :=
  match n, s with
  | S n', String a s' => String a (take n' s')
  | _, _ => ""
  end.

(** [strings.HasPrefix(s, prefix)]. *)
Fixpoint HasPrefix (s prefix : string) {struct prefix} : bool :=
  match prefix with
  | "" => true
  | String a prefix' =>
      match s with
      | "" => false
      | String b s' => Ascii.eqb a b && HasPrefix s' prefix'
      end
  end.

(** [strings.Index(s, substr)]: the byte index of the first instance of
    [substr] in [s]; [None] stands for Go's [-1]. *)
Fixpoint Index (s substr : string) : option nat :=
  if HasPrefix s substr then Some 0
  else match s with
       | "" => None
       | String _ s' => S <$> Index s' substr
       end.

(** [strings.Contains(s, substr)] is [Index(s, substr) >= 0]. *)
Definition Contains (s substr : string) : bool :=
  match Index s substr with Some _ => true | None => false end.

(** [strings.Replace(s, old, new, n)] for [n >= 0]: the first [n]
    non-overlapping instances of [old], found from the left with [Index],
    are replaced by [new].  The proxy only calls it with [n = 1], where
    this is exactly Go's function (for an empty [old], Go inserts [new] in
    front of [s], as here; its rune-wise stepping for an empty [old] only
    starts at the second replacement). *)
Fixpoint Replace (s old new : string) (n : nat) : string :=
  match n with
  | O => s
  | S n' =>
      match Index s old with
      | None => s
      | Some j => take j s +:+ new +:+ Replace (drop (j + String.length old) s) old new n'
      end
  end.

(** [strings.Split(s, sep)] for a non-empty [sep] (Go's [genSplit] with
    [n < 0]): cut at every instance of [sep], found from the left.  At most
    [len(s)] cuts are possible, which bounds the loop. *)
Fixpoint genSplit (fuel : nat) (s sep : string) : list string :=
  match fuel with
  | O => [s]
  | S fuel' =>
      match Index s sep with
      | None => [s]
      | Some i => take i s :: genSplit fuel' (drop (i + String.length sep) s) sep
      end
  end.

Definition Split (s sep : string) : list string :=
  genSplit (String.length s) s sep.

(** [strings.ToLower(s)].  A string of ASCII bytes takes the fast path of
    the Go function: [A-Z] become [a-z] and every other byte is kept.  A
    string with a byte of 128 or more is lower-cased rune by rune,
    [strings.Map(unicode.ToLower, s)]; that map rests on the Unicode tables
    and is the argument [unicodeLower] here. *)
Definition lowerByte (c : ascii) : ascii :=
  let n := nat_of_ascii c in
  if (65 <=? n)%nat && (n <=? 90)%nat then ascii_of_nat (n + 32) else c.

Fixpoint isASCII (s : string) : bool :=
  match s with
  | "" => true
  | String c s' => (nat_of_ascii c <? 128)%nat && isASCII s'
  end.

Fixpoint lowerASCII (s : string) : string :=
  match s with
  | "" => ""
  | String c s' => String (lowerByte c) (lowerASCII s')
  end.

Definition ToLower (unicodeLower : string -> string) (s : string) : string :=
  if isASCII s then lowerASCII s else unicodeLower s.

End GoStrings.

Module GoStrconv.

Definition digit (d : Z) : ascii := ascii_of_nat (48 + Z.to_nat d).

(** The digit loop of [strconv.FormatInt(_, 10)] on the magnitude [u];
    [fuel] bounds the number of digits. *)
Fixpoint formatBits (fuel : nat) (u : Z) (acc : string) : string :=
  match fuel with
  | O => acc
  | S fuel' =>
      let acc' := String (digit (u mod 10)) acc in
      if (u <? 10)%Z then acc' else formatBits fuel' (u / 10) acc'
  end.

(** [strconv.Itoa(i)]: decimal digits, with a leading minus sign for a
    negative [i].  A number has at most as many decimal digits as bits. *)
Definition Itoa (i : Z) : string :=
  if (i <? 0)%Z
  then String "-" (formatBits (S (Z.to_nat (Z.log2 (- i)))) (- i) "")
  else formatBits (S (Z.to_nat (Z.log2 i))) i "".

End GoStrconv.

Module GoNet.

(** [net.JoinHostPort(host, port)] for a [host] without [':'] or ['%']
    (the proxy passes the literal ["localhost"]): no brackets are added. *)
Definition JoinHostPort (host port : string) : string :=
  host +:+ ":" +:+ port.

End GoNet.

Import GoStrings.

(** ** The URL rewriter (reverse-proxy.go, [rewriteWebSocketURL]) *)

(** The slice literal [patterns].  [strings.Split(targetHostPort, ":")[1]]
    is an index expression: when [targetHostPort] holds no [':'] it panics
    (index out of range), which is [None] here.  Go evaluates the whole
    literal before the loop starts. *)
Definition patterns (targetHostPort : string) : option (list string) :=
  port ← Split targetHostPort ":" !! 1%nat;
  Some [ "ws://" +:+ targetHostPort;
         "ws://127.0.0.1:" +:+ port;
         "ws://localhost:" +:+ port ].

(** [for _, pattern := range patterns { if strings.Contains(...) { return
    strings.Replace(..., 1) } }; return originalURL] (the warning that is
    logged before the final return is not part of the result). *)
Fixpoint rewriteLoop (pats : list string) (originalURL publicHostPort : string) : string :=
  match pats with
  | [] => originalURL
  | pattern :: rest =>
      if Contains originalURL pattern
      then Replace originalURL pattern ("wss://" +:+ publicHostPort) 1
      else rewriteLoop rest originalURL publicHostPort
  end.

Definition rewriteWebSocketURL (originalURL targetHostPort publicHostPort : string)
  : option string :=
  pats ← patterns targetHostPort;
  Some (rewriteLoop pats originalURL publicHostPort).


(** ** Data model *)

(** A Go [interface{}] value as [encoding/json] produces and consumes it,
    together with the [int64] the metrics handler stores.  A JSON number
    decodes to [float64]; a JSON object to a (non-nil) map. *)
#[warnings="-register-all"]
Inductive value : Type :=
| VNil
| VBool (b : bool)
| VFloat64 (f : PrimFloat.float)
| VInt64 (n : Z)
| VString (s : string)
| VSlice (l : list value)
| VMap (m : gmap string value).

(** A variable of type [map[string]interface{}]: the nil map (what the JSON
    text [null] decodes to), or a map.  Reading a key of the nil map finds
    nothing. *)
Inductive gomap : Type :=
| NilMap
| Map (m : gmap string value).

(** A variable of type [[]map[string]interface{}]. *)
Inductive goslice : Type :=
| NilSlice
| Slice (l : list gomap).

Definition value_of_map (d : gomap) : value :=
  match d with NilMap => VNil | Map m => VMap m end.

Definition value_of_slice (d : goslice) : value :=
  match d with NilSlice => VNil | Slice l => VSlice (value_of_map <$> l) end.

(** Bytes handed to the [http.ResponseWriter].  The output of
    [json.Marshal(v)] is kept symbolically as [JSON v], and what
    [json.NewEncoder(w).Encode(v)] writes (the same bytes and a newline) as
    [JSONLine v]; everything else is literal bytes. *)
Inductive bytes : Type :=
| Raw (s : string)
| JSON (v : value)
| JSONLine (v : value).

Inductive result (A : Type) : Type :=
| Ok (a : A)
| Err (err : string).
Arguments Ok {A} a.
Arguments Err {A} err.

(** What [c.client.Get(url)] followed by [io.ReadAll(resp.Body)] yields. *)
Inductive fetched : Type :=
| GetError (err : string)
| ReadError (err : string)
| FetchedBody (body : string).

Record Request : Type := {
  Method : string;
  URL_Path : string;
  Host : string;
  Header : gmap string (list string)
}.

Record Response : Type := {
  StatusCode : Z;
  RespHeader : list (string * string);
  Body : bytes
}.

(** [ChromeDevToolsClient].  The [http.Client] is represented by its timeout
    and the [ReverseProxy] by [proxy_ServeHTTP] below; neither holds state
    that the handlers change. *)
Record ChromeDevToolsClient : Type := {
  targetHostPort : string;
  clientTimeout : Z;
  requestCount : Z;
  errorCount : Z;
  startTime : Z
}.

(** What [httputil.ReverseProxy] makes of a round trip that gave a response:
    it relays the response to the caller, or it panics while doing so
    ([panic(http.ErrAbortHandler)] when copying the body breaks off; the
    proxy has no [recover]). *)
Inductive relayed : Type :=
| Relayed (resp : Response)
| Aborted.

(** What the world outside the proxy answers during one request: the target,
    the JSON codec and the clock; and the Unicode lower-casing of
    [strings.ToLower]. *)
Record Env : Type := {
  client_Get : string -> fetched;
  json_Unmarshal_map : string -> result gomap;
  json_Unmarshal_slice : string -> result goslice;
  (** [json.Marshal(v)]: an error, or the length of the encoding. *)
  json_Marshal : value -> result nat;
  (** The proxy's [http.Transport]: a transport error, or a response and
      what becomes of it. *)
  transport_RoundTrip : Request -> result relayed;
  time_Now : Z;
  Duration_String : Z -> string;
  Duration_Seconds : Z -> PrimFloat.float;
  (** [strings.Map(unicode.ToLower, s)]. *)
  unicode_ToLower : string -> string
}.

(** A handler returns, or panics; the client struct is shared and keeps the
    changes made up to then. *)
Inductive outcome : Type :=
| Done (c : ChromeDevToolsClient) (w : Response)
| Panic (c : ChromeDevToolsClient).

Definition client_of (o : outcome) : ChromeDevToolsClient :=
  match o with Done c _ => c | Panic c => c end.

Definition response_of (o : outcome) : option Response :=
  match o with Done _ w => Some w | Panic _ => None end.

(** ** [int64] arithmetic *)

Definition int64_wrap (n : Z) : Z := ((n + 2 ^ 63) mod 2 ^ 64 - 2 ^ 63)%Z.

(** [x++] on an [int64]. *)
Definition int64_incr (n : Z) : Z := int64_wrap (n + 1).

Definition incRequestCount (c : ChromeDevToolsClient) : ChromeDevToolsClient :=
  {| targetHostPort := targetHostPort c;
     clientTimeout := clientTimeout c;
     requestCount := int64_incr (requestCount c);
     errorCount := errorCount c;
     startTime := startTime c |}.

Definition incErrorCount (c : ChromeDevToolsClient) : ChromeDevToolsClient :=
  {| targetHostPort := targetHostPort c;
     clientTimeout := clientTimeout c;
     requestCount := requestCount c;
     errorCount := int64_incr (errorCount c);
     startTime := startTime c |}.

(** ** [net/http] helpers *)

Definition LF : string := String (ascii_of_nat 10) "".

(** [http.Error(w, msg, code)]. *)
Definition http_Error (msg : string) (code : Z) : Response :=
  {| StatusCode := code;
     RespHeader := [("Content-Type", "text/plain; charset=utf-8");
                    ("X-Content-Type-Options", "nosniff")];
     Body := Raw (msg +:+ LF) |}.

(** [h.Get(key)] for a canonical [key]: the first value, or [""]. *)
Definition Header_Get (h : gmap string (list string)) (key : string) : string :=
  match h !! key with
  | Some (v :: _) => v
  | _ => ""
  end.

(** [h.Set(key, value)]. *)
Definition Header_Set (h : gmap string (list string)) (key v : string)
  : gmap string (list string) :=
  <[key := [v]]> h.

(** ** The proxy *)

Definition NewChromeDevToolsClient (port timeoutSec now : Z) : ChromeDevToolsClient :=
  {| targetHostPort := GoNet.JoinHostPort "localhost" (GoStrconv.Itoa port);
     clientTimeout := int64_wrap (timeoutSec * 1000000000);
     requestCount := 0;
     errorCount := 0;
     startTime := now |}.

Definition isWebSocketUpgrade (env : Env) (r : Request) : bool :=
  String.eqb (ToLower (unicode_ToLower env) (Header_Get (Header r) "Upgrade")) "websocket"
  && Contains (ToLower (unicode_ToLower env) (Header_Get (Header r) "Connection")) "upgrade".

(** The [Director] installed by [NewChromeDevToolsClient]: after the stock
    director has pointed the request at the target, the upgrade headers of
    a WebSocket upgrade request are set to their canonical spelling. *)
Definition Director (env : Env) (req : Request) : Request :=
  if isWebSocketUpgrade env req
  then {| Method := Method req;
          URL_Path := URL_Path req;
          Host := Host req;
          Header := Header_Set (Header_Set (Header req) "Connection" "Upgrade")
                      "Upgrade" "websocket" |}
  else req.

(** [c.proxy.ServeHTTP(w, r)].  [httputil.ReverseProxy] sends the directed
    request to the target and copies the answer back; on a transport error
    its default error handler (no [ErrorHandler] is installed) logs and
    answers 502; when it panics while relaying, so does the handler.  It has
    no access to the client struct, which stays as the caller left it. *)
Definition proxy_ServeHTTP (env : Env) (c : ChromeDevToolsClient) (r : Request) : outcome :=
  match transport_RoundTrip env (Director env r) with
  | Ok (Relayed resp) => Done c resp
  | Ok Aborted => Panic c
  | Err _ => Done c {| StatusCode := 502; RespHeader := []; Body := Raw "" |}
  end.

Definition handleHealth (env : Env) (c : ChromeDevToolsClient) (r : Request) : outcome :=
  match client_Get env ("http://" +:+ targetHostPort c +:+ "/json/version") with
  | GetError err =>
      Done c {| StatusCode := 503;
                RespHeader := [];
                Body := JSONLine (VMap (<["status" := VString "unhealthy"]>
                                        (<["error" := VString err]> ∅))) |}
  | _ =>
      Done c {| StatusCode := 200;
                RespHeader := [("Content-Type", "application/json")];
                Body := JSONLine (VMap
                  (<["status" := VString "healthy"]>
                  (<["uptime" := VString (Duration_String env (time_Now env - startTime c))]>
                  (<["target" := VString (targetHostPort c)]>
                  (<["timestamp" := VInt64 (time_Now env / 1000000000)]> ∅))))) |}
  end.

Definition handleMetrics (env : Env) (c : ChromeDevToolsClient) (r : Request) : outcome :=
  Done c {| StatusCode := 200;
            RespHeader := [("Content-Type", "application/json")];
            Body := JSONLine (VMap
              (<["requests_total" := VInt64 (requestCount c)]>
              (<["errors_total" := VInt64 (errorCount c)]>
              (<["uptime_seconds" := VFloat64 (Duration_Seconds env (time_Now env - startTime c))]>
              (<["target_host" := VString (targetHostPort c)]> ∅))))) |}.

(** The rewriting step of [handleJsonVersion]; [None] is the panic of
    [rewriteWebSocketURL]. *)
Definition rewriteVersionData (target publicHostPort : string) (versionData : gomap)
  : option gomap :=
  match versionData with
  | NilMap => Some NilMap
  | Map m =>
      match m !! "webSocketDebuggerUrl" with
      | Some (VString wsURLStr) =>
          newWSURL ← rewriteWebSocketURL wsURLStr target publicHostPort;
          Some (Map (<["webSocketDebuggerUrl" := VString newWSURL]> m))
      | _ => Some (Map m)
      end
  end.

(** The 200 answer both discovery handlers end with. *)
Definition writeJSON (len : nat) (v : value) : Response :=
  {| StatusCode := 200;
     RespHeader := [("Content-Type", "application/json");
                    ("Content-Length", GoStrconv.Itoa (Z.of_nat len))];
     Body := JSON v |}.

Definition handleJsonVersion (env : Env) (c : ChromeDevToolsClient) (r : Request) : outcome :=
  let publicHostPort := Host r in
  match client_Get env ("http://" +:+ targetHostPort c +:+ "/json/version") with
  | GetError err =>
      Done (incErrorCount c)
           (http_Error ("Failed to get JSON version: " +:+ err) 502)
  | ReadError err =>
      Done (incErrorCount c)
           (http_Error ("Failed to read response body: " +:+ err) 500)
  | FetchedBody body =>
      match json_Unmarshal_map env body with
      | Err err =>
          Done (incErrorCount c)
               (http_Error ("Failed to unmarshal response body: " +:+ err) 500)
      | Ok versionData =>
          match rewriteVersionData (targetHostPort c) publicHostPort versionData with
          | None => Panic c
          | Some versionData' =>
              match json_Marshal env (value_of_map versionData') with
              | Err err =>
                  Done (incErrorCount c)
                       (http_Error ("Failed to marshal response body: " +:+ err) 500)
              | Ok len => Done c (writeJSON len (value_of_map versionData'))
              end
          end
      end
  end.

(** The [devtoolsFrontendUrl] step of the loop body in [handleJsonList]. *)
Definition rewriteDevURL (target publicHostPort : string) (m : gmap string value)
  : gmap string value :=
  match m !! "devtoolsFrontendUrl" with
  | Some (VString devURLStr) =>
      <["devtoolsFrontendUrl" :=
          VString (Replace devURLStr ("ws=" +:+ target) ("ws=" +:+ publicHostPort) 1)]> m
  | _ => m
  end.

(** One iteration of the loop of [handleJsonList]: [devtoolsFrontendUrl]
    first, then [webSocketDebuggerUrl]. *)
Definition rewriteTarget (target publicHostPort : string) (entry : gomap) : option gomap :=
  match entry with
  | NilMap => Some NilMap
  | Map m =>
      let m1 := rewriteDevURL target publicHostPort m in
      match m1 !! "webSocketDebuggerUrl" with
      | Some (VString wsURLStr) =>
          newWSURL ← rewriteWebSocketURL wsURLStr target publicHostPort;
          Some (Map (<["webSocketDebuggerUrl" := VString newWSURL]> m1))
      | _ => Some (Map m1)
      end
  end.

(** [for i, target := range targetsData { ... }], front to back. *)
Definition rewriteTargets (target publicHostPort : string) (targetsData : goslice)
  : option goslice :=
  match targetsData with
  | NilSlice => Some NilSlice
  | Slice l => Slice <$> mapM (rewriteTarget target publicHostPort) l
  end.

Definition handleJsonList (env : Env) (c : ChromeDevToolsClient) (r : Request) : outcome :=
  let publicHostPort := Host r in
  match client_Get env ("http://" +:+ targetHostPort c +:+ URL_Path r) with
  | GetError err =>
      Done (incErrorCount c)
           (http_Error ("Failed to get JSON list: " +:+ err) 502)
  | ReadError err =>
      Done (incErrorCount c)
           (http_Error ("Failed to read response body: " +:+ err) 500)
  | FetchedBody body =>
      match json_Unmarshal_slice env body with
      | Err err =>
          Done (incErrorCount c)
               (http_Error ("Failed to unmarshal response body: " +:+ err) 500)
      | Ok targetsData =>
          match rewriteTargets (targetHostPort c) publicHostPort targetsData with
          | None => Panic c
          | Some targetsData' =>
              match json_Marshal env (value_of_slice targetsData') with
              | Err err =>
                  Done (incErrorCount c)
                       (http_Error ("Failed to marshal response body: " +:+ err) 500)
              | Ok len => Done c (writeJSON len (value_of_slice targetsData'))
              end
          end
      end
  end.

(** The arms of the [switch] in [ServeHTTP]. *)
Inductive route : Type :=
| ToHealth
| ToMetrics
| ToJsonVersion
| ToJsonList
| ToWebSocketProxy
| ToProxy.

Definition MethodGet : string := "GET".

(** The [switch] of [ServeHTTP]: the first case whose condition holds. *)
Definition dispatch (env : Env) (r : Request) : route :=
  if String.eqb (Method r) MethodGet && String.eqb (URL_Path r) "/health"
  then ToHealth
  else if String.eqb (Method r) MethodGet && String.eqb (URL_Path r) "/metrics"
  then ToMetrics
  else if String.eqb (Method r) MethodGet
          && (String.eqb (URL_Path r) "/json/version"
              || String.eqb (URL_Path r) "/json/version/")
  then ToJsonVersion
  else if String.eqb (Method r) MethodGet
          && (String.eqb (URL_Path r) "/json"
              || String.eqb (URL_Path r) "/json/"
              || String.eqb (URL_Path r) "/json/list")
  then ToJsonList
  else if isWebSocketUpgrade env r
  then ToWebSocketProxy
  else ToProxy.

Definition ServeHTTP (env : Env) (c : ChromeDevToolsClient) (r : Request) : outcome :=
  let c := incRequestCount c in
  match dispatch env r with
  | ToHealth => handleHealth env c r
  | ToMetrics => handleMetrics env c r
  | ToJsonVersion => handleJsonVersion env c r
  | ToJsonList => handleJsonList env c r
  | ToWebSocketProxy => proxy_ServeHTTP env c r
  | ToProxy => proxy_ServeHTTP env c r
  end.

(** ** Concurrent requests

    [net/http] runs [ServeHTTP] in one goroutine per connection, all on the
    same [*ChromeDevToolsClient].  The first statement, [c.requestCount++],
    is a plain read of the field followed by a plain write of the value read
    plus one: there is no lock and no [sync/atomic].  A schedule names, step
    by step, the goroutine that performs its next access. *)

Module Race.

Inductive goroutine : Type :=
| AtLoad                (* about to read c.requestCount *)
| AtStore (tmp : Z)     (* has read tmp, about to write tmp + 1 *)
| Counted.              (* past the increment *)

(** The shared field and the goroutines in flight. *)
Definition state : Type := (Z * list goroutine)%type.

Definition step (st : state) (i : nat) : state :=
  match st.2 !! i with
  | Some AtLoad => (st.1, <[i := AtStore st.1]> st.2)
  | Some (AtStore tmp) => (int64_incr tmp, <[i := Counted]> st.2)
  | _ => st
  end.

Definition run (schedule : list nat) (st : state) : state :=
  foldl step st schedule.

(** [n] requests that have just entered [ServeHTTP]. *)
Definition arrivals (n : nat) : list goroutine := replicate n AtLoad.

End Race.

(** ** Vocabulary of the properties *)

(** The address [addr] occurs in a string, or in a key, of the value. *)
Inductive mentions (addr : string) : value -> Prop :=
| mentions_string s :
    Contains s addr = true -> mentions addr (VString s)
| mentions_elem l v :
    v ∈ l -> mentions addr v -> mentions addr (VSlice l)
| mentions_key (m : gmap string value) k v :
    m !! k = Some v -> Contains k addr = true -> mentions addr (VMap m)
| mentions_field (m : gmap string value) k v :
    m !! k = Some v -> mentions addr v -> mentions addr (VMap m).

Definition body_mentions (addr : string) (b : bytes) : Prop :=
  match b with
  | Raw s => Contains s addr = true
  | JSON v => mentions addr v
  | JSONLine v => mentions addr v
  end.

(** [p] occurs in [s] at byte offset [i]. *)
Definition occurs_at (s p : string) (i : nat) : Prop :=
  (i <= String.length s)%nat /\ HasPrefix (drop i s) p = true.

(** [s] is [before ++ p ++ after] and this is the leftmost instance of [p]. *)
Definition first_instance (s p before after : string) : Prop :=
  s = before +:+ p +:+ after
  /\ forall i, (i < String.length before)%nat -> HasPrefix (drop i s) p = false.

(** Two documents have the same keys and agree on every key outside
    [keys]; a nil map stays nil. *)
Definition agree_outside (keys : list string) (d d' : gomap) : Prop :=
  match d, d' with
  | NilMap, NilMap => True
  | Map m, Map m' =>
      dom m' = dom m /\ forall k, k ∉ keys -> m' !! k = m !! k
  | _, _ => False
  end.

(** The client serves the target on [port]: its [targetHostPort] is the one
    [NewChromeDevToolsClient] computed (the handlers never change it). *)
Definition serving (port : Z) (c : ChromeDevToolsClient) : Prop :=
  targetHostPort c = GoNet.JoinHostPort "localhost" (GoStrconv.Itoa port).

(** The list handler's view of "the same list, other fields untouched": nil
    stays nil; otherwise as many entries, and entry [i] of the result stems
    from entry [i] of the input. *)
Definition same_targets (keys : list string) (d d' : goslice) : Prop :=
  match d, d' with
  | NilSlice, NilSlice => True
  | Slice l, Slice l' =>
      List.length l' = List.length l
      /\ forall i e, l !! i = Some e ->
           exists e', l' !! i = Some e' /\ agree_outside keys e e'
  | _, _ => False
  end.

Definition wsKey : string := "webSocketDebuggerUrl".
Definition devKey : string := "devtoolsFrontendUrl".

Definition versionURL (c : ChromeDevToolsClient) : string :=
  "http://" +:+ targetHostPort c +:+ "/json/version".

Definition listURL (c : ChromeDevToolsClient) (r : Request) : string :=
  "http://" +:+ targetHostPort c +:+ URL_Path r.

(** The paths the router knows; on any other path, and for any method other
    than GET, the request goes to the reverse proxy. *)
Definition special_paths : list string :=
  ["/health"; "/metrics"; "/json/version"; "/json/version/"; "/json"; "/json/"; "/json/list"].

(** ** A sample deployment: Chromium on 9222, the proxy reached as
    [9223-host.example] *)

Module Sample.

Definition quote : string := String (ascii_of_nat 34) "".
Definition jstr (s : string) : string := quote +:+ s +:+ quote.

Definition versionDoc : gmap string value :=
  <["Browser" := VString "Chrome/138.0.7204.168"]>
  (<["webSocketDebuggerUrl" := VString "ws://127.0.0.1:9222/devtools/browser/abc123"]> ∅).

Definition versionBody : string :=
  "{" +:+ jstr "Browser" +:+ ":" +:+ jstr "Chrome/138.0.7204.168" +:+ ","
      +:+ jstr "webSocketDebuggerUrl" +:+ ":"
      +:+ jstr "ws://127.0.0.1:9222/devtools/browser/abc123" +:+ "}".

Definition pageDoc : gmap string value :=
  <["description" := VString ""]>
  (<["devtoolsFrontendUrl" :=
       VString "/devtools/inspector.html?ws=localhost:9222/devtools/page/27E1"]>
  (<["id" := VString "27E1"]>
  (<["type" := VString "page"]>
  (<["webSocketDebuggerUrl" := VString "ws://localhost:9222/devtools/page/27E1"]> ∅)))).

Definition listBody : string :=
  "[{" +:+ jstr "description" +:+ ":" +:+ jstr "" +:+ ","
       +:+ jstr "devtoolsFrontendUrl" +:+ ":"
       +:+ jstr "/devtools/inspector.html?ws=localhost:9222/devtools/page/27E1" +:+ ","
       +:+ jstr "id" +:+ ":" +:+ jstr "27E1" +:+ ","
       +:+ jstr "type" +:+ ":" +:+ jstr "page" +:+ ","
       +:+ jstr "webSocketDebuggerUrl" +:+ ":"
       +:+ jstr "ws://localhost:9222/devtools/page/27E1" +:+ "}]".

Definition notJSON : string := "<html>".

(** The part of [unicode.ToLower] this deployment meets: the Kelvin sign
    (U+212A, the bytes 226 132 170) becomes [k], ASCII capitals become
    small, every other byte is kept.  [skip] bytes of a rune already dealt
    with are passed over. *)
Definition kelvin : string :=
  String (ascii_of_nat 226) (String (ascii_of_nat 132) (String (ascii_of_nat 170) "")).

Fixpoint lowerRunes (skip : nat) (s : string) : string :=
  match s with
  | "" => ""
  | String a rest =>
      match skip with
      | S skip' => lowerRunes skip' rest
      | O =>
          if HasPrefix s kelvin then String "k" (lowerRunes 2 rest)
          else String (lowerByte a) (lowerRunes 0 rest)
      end
  end.

(** The codec on the bodies of this deployment (encodings are symbolic, so
    their length is a number the environment supplies). *)
Definition Unmarshal_map (body : string) : result gomap :=
  if String.eqb body versionBody then Ok (Map versionDoc)
  else Err "invalid character".

Definition Unmarshal_slice (body : string) : result goslice :=
  if String.eqb body listBody then Ok (Slice [Map pageDoc])
  else Err "invalid character".

Definition env (get : string -> fetched) (roundTrip : Request -> result relayed) : Env :=
  {| client_Get := get;
     json_Unmarshal_map := Unmarshal_map;
     json_Unmarshal_slice := Unmarshal_slice;
     json_Marshal := fun _ => Ok 128%nat;
     transport_RoundTrip := roundTrip;
     time_Now := 1754000000000000000;
     Duration_String := fun _ => "1s";
     Duration_Seconds := fun _ => PrimFloat.one;
     unicode_ToLower := lowerRunes 0 |}.

(** Chromium up: the discovery documents above. *)
Definition up : Env :=
  env (fun url =>
         if String.eqb url "http://localhost:9222/json/version"
         then FetchedBody versionBody
         else FetchedBody listBody)
      (fun _ => Ok (Relayed {| StatusCode := 200; RespHeader := []; Body := Raw "ok" |})).

(** Chromium down: connection refused. *)
Definition down : Env :=
  env (fun _ => GetError "connection refused")
      (fun _ => Err "connection refused").

(** Chromium replaced by something that does not speak JSON. *)
Definition garbled : Env :=
  env (fun _ => FetchedBody notJSON)
      (fun _ => Ok (Relayed {| StatusCode := 200; RespHeader := []; Body := Raw notJSON |})).

Definition client : ChromeDevToolsClient :=
  NewChromeDevToolsClient 9222 30 1753999999000000000.

Definition get (path : string) : Request :=
  {| Method := "GET"; URL_Path := path; Host := "9223-host.example"; Header := ∅ |}.

Definition upgrade (path : string) : Request :=
  {| Method := "GET"; URL_Path := path; Host := "9223-host.example";
     Header := <["Upgrade" := ["WebSocket"]]> (<["Connection" := ["keep-alive, Upgrade"]]> ∅) |}.

End Sample.

(** ** Further vocabulary: runs of requests, accepted spellings, settled
    and rewritten documents, failures, decimal numbers, [main] *)

(** The client after a run of requests served one after the other, each
    with what the world answers while it is served. *)
Definition serveAll (reqs : list (Env * Request)) (c : ChromeDevToolsClient)
  : ChromeDevToolsClient :=
  foldl (fun c er => client_of (ServeHTTP er.1 c er.2)) c reqs.

(** The request is answered by a discovery handler with something other
    than 200. *)
Definition discoveryFailed (env : Env) (c : ChromeDevToolsClient) (r : Request) : bool :=
  match dispatch env r, ServeHTTP env c r with
  | ToJsonVersion, Done _ w => negb (StatusCode w =? 200)%Z
  | ToJsonList, Done _ w => negb (StatusCode w =? 200)%Z
  | _, _ => false
  end.

(** How many requests of the run were such failures. *)
Fixpoint failures (reqs : list (Env * Request)) (c : ChromeDevToolsClient) : nat :=
  match reqs with
  | [] => 0
  | er :: rest =>
      (if discoveryFailed er.1 c er.2 then 1 else 0)
      + failures rest (client_of (ServeHTTP er.1 c er.2))
  end.

(** [c] is the lower-case letter [l], or its capital. *)
Definition letter_of (l c : ascii) : Prop :=
  c = l \/ (nat_of_ascii c + 32 = nat_of_ascii l)%nat.

(** [s] spells [word] (a word in lower-case letters) in some mix of lower
    and upper case. *)
Fixpoint spells (word s : string) : Prop :=
  match word, s with
  | "", "" => True
  | String l word', String c s' => letter_of l c /\ spells word' s'
  | _, _ => False
  end.

(** Every byte of the word is one of [a] .. [z]. *)
Fixpoint lower_case_word (word : string) : Prop :=
  match word with
  | "" => True
  | String l word' =>
      (97 <= nat_of_ascii l <= 122)%nat /\ lower_case_word word'
  end.

(** A field the rewrites leave alone: it is missing, or not a string, or a
    string in which none of [pats] occurs. *)
Definition settled (pats : list string) (field : option value) : Prop :=
  match field with
  | Some (VString s) => forall q, q ∈ pats -> Contains s q = false
  | _ => True
  end.

(** A list entry with nothing to rewrite in either URL field. *)
Definition entry_settled (target : string) (pats : list string) (e : gomap) : Prop :=
  match e with
  | NilMap => True
  | Map m => settled pats (m !! wsKey) /\ settled ["ws=" +:+ target] (m !! devKey)
  end.

(** A second deployment: a Chromium with no page open, whose version
    document carries no debugger URL. *)
Module Idle.

Definition versionDoc : gmap string value :=
  <["Browser" := VString "Chrome/138.0.7204.168"]>
  (<["Protocol-Version" := VString "1.3"]> ∅).

Definition env : Env :=
  {| client_Get := fun url =>
       if String.eqb url "http://localhost:9222/json/version"
       then FetchedBody "version" else FetchedBody "[]";
     json_Unmarshal_map := fun body =>
       if String.eqb body "version" then Ok (Map versionDoc) else Err "invalid character";
     json_Unmarshal_slice := fun body =>
       if String.eqb body "[]" then Ok (Slice []) else Err "invalid character";
     json_Marshal := fun v => match v with VSlice [] => Ok 2%nat | _ => Ok 54%nat end;
     transport_RoundTrip := fun _ => Err "connection reset";
     time_Now := 1754000000000000000;
     Duration_String := fun _ => "1s";
     Duration_Seconds := fun _ => PrimFloat.one;
     unicode_ToLower := Sample.lowerRunes 0 |}.

End Idle.

(** The number a string of decimal digits stands for, read from the left
    with [v] already read. *)
Fixpoint decimal_from (v : Z) (s : string) : Z :=
  match s with
  | "" => v
  | String c s' => decimal_from (v * 10 + (Z.of_nat (nat_of_ascii c) - 48)) s'
  end.

(** The same with an optional leading minus sign. *)
Definition decimal_value (s : string) : Z :=
  match s with
  | String "-" s' => - decimal_from 0 s'
  | _ => decimal_from 0 s
  end.

(** What the rewrites make of the two URL fields, for a proxy in front of
    [localhost:<port>] that is reached as [pub].

    A debugger URL: the leftmost instance of [ws://localhost:<port>] becomes
    [wss://<pub>]; when that spelling does not occur, the leftmost instance
    of [ws://127.0.0.1:<port>] does; when neither occurs, the URL stays. *)
Inductive ws_rewritten (port : Z) (pub url : string) : string -> Prop :=
| ws_rewritten_localhost before after :
    first_instance url ("ws://localhost:" +:+ GoStrconv.Itoa port) before after ->
    ws_rewritten port pub url (before +:+ "wss://" +:+ pub +:+ after)
| ws_rewritten_loopback before after :
    Contains url ("ws://localhost:" +:+ GoStrconv.Itoa port) = false ->
    first_instance url ("ws://127.0.0.1:" +:+ GoStrconv.Itoa port) before after ->
    ws_rewritten port pub url (before +:+ "wss://" +:+ pub +:+ after)
| ws_rewritten_neither :
    Contains url ("ws://localhost:" +:+ GoStrconv.Itoa port) = false ->
    Contains url ("ws://127.0.0.1:" +:+ GoStrconv.Itoa port) = false ->
    ws_rewritten port pub url url.

(** A front-end URL: the leftmost instance of [ws=localhost:<port>] becomes
    [ws=<pub>]; a URL without one stays. *)
Inductive dev_rewritten (port : Z) (pub url : string) : string -> Prop :=
| dev_rewritten_first before after :
    first_instance url ("ws=localhost:" +:+ GoStrconv.Itoa port) before after ->
    dev_rewritten port pub url (before +:+ "ws=" +:+ pub +:+ after)
| dev_rewritten_none :
    Contains url ("ws=localhost:" +:+ GoStrconv.Itoa port) = false ->
    dev_rewritten port pub url url.

(** A field before and after: a string is rewritten by [R]; a field that is
    missing or holds something else is as it was. *)
Definition field_rewritten (R : string -> string -> Prop) (f f' : option value) : Prop :=
  match f with
  | Some (VString s) => exists s', f' = Some (VString s') /\ R s s'
  | _ => f' = f
  end.

(** The version document before and after: the debugger URL rewritten, every
    other key as it was. *)
Definition version_rewritten (port : Z) (pub : string) (d d' : gomap) : Prop :=
  match d, d' with
  | NilMap, NilMap => True
  | Map m, Map m' =>
      (forall k, k <> wsKey -> m' !! k = m !! k)
      /\ field_rewritten (ws_rewritten port pub) (m !! wsKey) (m' !! wsKey)
  | _, _ => False
  end.

(** An entry of the target list before and after: both URLs rewritten, every
    other key as it was. *)
Definition target_rewritten (port : Z) (pub : string) (e e' : gomap) : Prop :=
  match e, e' with
  | NilMap, NilMap => True
  | Map m, Map m' =>
      (forall k, k <> wsKey -> k <> devKey -> m' !! k = m !! k)
      /\ field_rewritten (ws_rewritten port pub) (m !! wsKey) (m' !! wsKey)
      /\ field_rewritten (dev_rewritten port pub) (m !! devKey) (m' !! devKey)
  | _, _ => False
  end.

(** The target list before and after: entry by entry, in order. *)
Definition targets_rewritten (port : Z) (pub : string) (d d' : goslice) : Prop :=
  match d, d' with
  | NilSlice, NilSlice => True
  | Slice l, Slice l' => Forall2 (target_rewritten port pub) l l'
  | _, _ => False
  end.

(** The client with one more error on its count and nothing else changed:
    the count is an [int64], one more than it was unless it was the largest
    [int64], after which comes the smallest. *)
Definition one_more_error (c c' : ChromeDevToolsClient) : Prop :=
  targetHostPort c' = targetHostPort c
  /\ clientTimeout c' = clientTimeout c
  /\ requestCount c' = requestCount c
  /\ startTime c' = startTime c
  /\ ((- 2 ^ 63 <= errorCount c < 2 ^ 63 - 1)%Z -> errorCount c' = (errorCount c + 1)%Z)
  /\ ((errorCount c = 2 ^ 63 - 1)%Z -> errorCount c' = (- 2 ^ 63)%Z).

(** The handler failed: it answered [code] with [msg] as plain text, the way
    [http.Error] does, and counted the error. *)
Definition failed_with (c : ChromeDevToolsClient) (code : Z) (msg : string) (o : outcome)
  : Prop :=
  exists c',
    o = Done c' {| StatusCode := code;
                   RespHeader := [("Content-Type", "text/plain; charset=utf-8");
                                  ("X-Content-Type-Options", "nosniff")];
                   Body := Raw (msg +:+ LF) |}
    /\ one_more_error c c'.

(** A target whose documents already carry the external address: nothing is
    left to rewrite.  Its other responses break off half-way, so the reverse
    proxy panics while relaying them. *)
Module Published.

Definition versionDoc : gmap string value :=
  <["Browser" := VString "Chrome/138.0.7204.168"]>
  (<["webSocketDebuggerUrl" := VString "wss://9223-host.example/devtools/browser/abc123"]> ∅).

Definition pageDoc : gmap string value :=
  <["devtoolsFrontendUrl" :=
      VString "/devtools/inspector.html?ws=9223-host.example/devtools/page/27E1"]>
  (<["id" := VString "27E1"]>
  (<["webSocketDebuggerUrl" := VString "wss://9223-host.example/devtools/page/27E1"]> ∅)).

Definition workerDoc : gmap string value :=
  <["id" := VString "5C0A"]>
  (<["type" := VString "service_worker"]>
  (<["webSocketDebuggerUrl" := VNil]> ∅)).

Definition env : Env :=
  {| client_Get := fun url =>
       if String.eqb url "http://localhost:9222/json/version"
       then FetchedBody "version" else FetchedBody "list";
     json_Unmarshal_map := fun body =>
       if String.eqb body "version" then Ok (Map versionDoc) else Err "invalid character";
     json_Unmarshal_slice := fun body =>
       if String.eqb body "list" then Ok (Slice [Map pageDoc; Map workerDoc])
       else Err "invalid character";
     json_Marshal := fun v => match v with VSlice _ => Ok 215%nat | _ => Ok 95%nat end;
     transport_RoundTrip := fun _ => Ok Aborted;
     time_Now := 1754000000000000000;
     Duration_String := fun _ => "1s";
     Duration_Seconds := fun _ => PrimFloat.one;
     unicode_ToLower := Sample.lowerRunes 0 |}.

End Published.

(** A target whose version document carries a number that no [float64]
    holds.  [json.Unmarshal] stores a JSON number in a
    [map[string]interface{}] as the nearest [float64]; for a whole number
    below [2^63] that is the conversion [PrimFloat.of_uint63]. *)
Module BigNumber.

Definition opening : string := "{" +:+ Sample.jstr "build" +:+ ":".

(** The body [{"build":<digits>}]. *)
Definition body (digits : string) : string := opening +:+ digits +:+ "}".

Definition number (digits : string) : value :=
  VFloat64 (PrimFloat.of_uint63 (Uint63.of_Z (decimal_value digits))).

Definition Unmarshal_map (text : string) : result gomap :=
  if HasPrefix text opening
  then let digits := take (String.length text - String.length opening - 1)
                          (drop (String.length opening) text) in
       if String.eqb text (body digits)
       then Ok (Map (<["build" := number digits]> ∅))
       else Err "invalid character"
  else Err "invalid character".

(** The target answers every GET with [{"build":<digits>}]. *)
Definition env (digits : string) : Env :=
  {| client_Get := fun _ => FetchedBody (body digits);
     json_Unmarshal_map := Unmarshal_map;
     json_Unmarshal_slice := fun _ => Err "cannot unmarshal object";
     json_Marshal := fun _ => Ok 26%nat;
     transport_RoundTrip := fun _ => Err "connection refused";
     time_Now := 1754000000000000000;
     Duration_String := fun _ => "1s";
     Duration_Seconds := fun _ => PrimFloat.one;
     unicode_ToLower := Sample.lowerRunes 0 |}.

End BigNumber.

(** The command-line flags of [main], after [flag.Parse]. *)
Record Flags : Type := {
  targetPort : Z;
  listenPort : Z;
  enableDebug : bool;
  timeout : Z
}.

(** The defaults [main] registers. *)
Definition defaultFlags : Flags :=
  {| targetPort := 9222; listenPort := 9223; enableDebug := true; timeout := 30 |}.

(** The [http.Server] that [main] starts. *)
Record Server : Type := {
  Addr : string;
  Handler : ChromeDevToolsClient;
  ReadTimeout : Z;
  WriteTimeout : Z
}.

(** [main], up to [server.ListenAndServe()]: [now] is the clock when the
    client is made. *)
Definition main (f : Flags) (now : Z) : Server :=
  {| Addr := ":" +:+ GoStrconv.Itoa (listenPort f);
     Handler := NewChromeDevToolsClient (targetPort f) (timeout f) now;
     ReadTimeout := int64_wrap (timeout f * 1000000000);
     WriteTimeout := int64_wrap (timeout f * 1000000000) |}.

(** The goroutines that are past their increment. *)
Fixpoint counted (gs : list Race.goroutine) : nat :=
  match gs with
  | [] => 0
  | Race.Counted :: rest => S (counted rest)
  | _ :: rest => counted rest
  end.

(** What every schedule keeps, from a counter that started at [n]: the
    counter, and every value a goroutine has read and not yet written back,
    lie between [n] and [n] plus the number of goroutines past their
    increment; and once a goroutine is past it, the counter is above [n]. *)
Definition race_invariant (n : Z) (st : Race.state) : Prop :=
  (n <= st.1 <= n + Z.of_nat (counted st.2))%Z
  /\ Forall (fun g => forall tmp, g = Race.AtStore tmp ->
                        (n <= tmp <= n + Z.of_nat (counted st.2))%Z) st.2
  /\ ((1 <= counted st.2)%nat -> (n + 1 <= st.1)%Z).

(** * Properties *)

#[local] Arguments String.append : simpl nomatch.
#[local] Arguments agree_outside : simpl never.
#[local] Arguments same_targets : simpl never.

(** ** The library functions on a few inputs *)

Example Itoa_examples :
  GoStrconv.Itoa 9222 = "9222" /\ GoStrconv.Itoa 0 = "0" /\ GoStrconv.Itoa (-17) = "-17"
  /\ GoStrconv.Itoa (2 ^ 63 - 1) = "9223372036854775807".
Proof. repeat split; reflexivity. Qed.

Example Split_examples :
  Split "localhost:9222" ":" = ["localhost"; "9222"]
  /\ Split "localhost" ":" = ["localhost"]
  /\ Split "a::b:" ":" = ["a"; ""; "b"; ""].
Proof. repeat split; reflexivity. Qed.

Example Replace_examples :
  Replace "a-b-c" "-" "+" 1 = "a+b-c"
  /\ Replace "abc" "x" "+" 1 = "abc"
  /\ Replace "abc" "" "+" 1 = "+abc"
  /\ Replace "aaa" "aa" "b" 1 = "ba".
Proof. repeat split; reflexivity. Qed.

Example Index_examples :
  Index "chicken" "ken" = Some 4%nat /\ Index "chicken" "dmr" = None
  /\ Index "chicken" "" = Some 0%nat.
Proof. repeat split; reflexivity. Qed.

Example ToLower_examples :
  ToLower (fun s => s) "WebSocket" = "websocket"
  /\ ToLower (fun s => s) "keep-alive, Upgrade" = "keep-alive, upgrade"
  /\ ToLower (Sample.lowerRunes 0) ("WebSoc" +:+ Sample.kelvin +:+ "et") = "websocket".
Proof. repeat split; reflexivity. Qed.

Example rewrite_readme :
  rewriteWebSocketURL "ws://127.0.0.1:9222/devtools/browser/abc123"
    (targetHostPort (NewChromeDevToolsClient 9222 30 0)) "9223-sandbox-host"
  = Some "wss://9223-sandbox-host/devtools/browser/abc123".
Proof. reflexivity. Qed.

(** Without a colon in the target the index expression panics. *)
Example rewrite_panics :
  rewriteWebSocketURL "ws://localhost/devtools" "localhost" "9223-sandbox-host" = None.
Proof. reflexivity. Qed.

(** ** Strings *)

Section StringFacts.
Implicit Types s p t before after : string.

Lemma append_assoc s t u : (s +:+ t) +:+ u = s +:+ t +:+ u.
Proof. induction s as [|a s IH]; simpl; [done | by rewrite IH]. Qed.

Lemma append_nil_r s : s +:+ "" = s.
Proof. induction s as [|a s IH]; simpl; [done | by rewrite IH]. Qed.

Lemma length_append s t : String.length (s +:+ t) = (String.length s + String.length t)%nat.
Proof. induction s as [|a s IH]; simpl; [done | by rewrite IH]. Qed.

Lemma drop_0 s : drop 0 s = s.
Proof. by destruct s. Qed.

Lemma drop_append s t : drop (String.length s) (s +:+ t) = t.
Proof. induction s as [|a s IH]; simpl; [apply drop_0 | done]. Qed.

Lemma take_append s t : take (String.length s) (s +:+ t) = s.
Proof. induction s as [|a s IH]; simpl; [by destruct t | by rewrite IH]. Qed.

Lemma drop_plus_append s t n : drop (String.length s + n) (s +:+ t) = drop n t.
Proof. induction s as [|a s IH]; simpl; [reflexivity | exact IH]. Qed.

Lemma HasPrefix_append p t : HasPrefix (p +:+ t) p = true.
Proof.
  induction p as [|a p IH]; simpl; [done |].
  by rewrite Ascii.eqb_refl, IH.
Qed.

Lemma HasPrefix_inv s p : HasPrefix s p = true -> s = p +:+ drop (String.length p) s.
Proof.
  revert s. induction p as [|a p IH]; intros s; simpl.
  - done.
  - destruct s as [|b s]; [done |].
    intros [Hab Hp]%andb_true_iff. apply Ascii.eqb_eq in Hab as ->.
    f_equal. by apply IH.
Qed.

Lemma HasPrefix_iff s p : HasPrefix s p = true <-> exists t, s = p +:+ t.
Proof.
  split.
  - intros H. eexists. by apply HasPrefix_inv.
  - intros [t ->]. apply HasPrefix_append.
Qed.

(** A prefix of a prefix. *)
Lemma HasPrefix_trans s p q : HasPrefix s p = true -> HasPrefix p q = true -> HasPrefix s q = true.
Proof.
  rewrite !HasPrefix_iff. intros [t ->] [u ->]. exists (u +:+ t). apply append_assoc.
Qed.

Lemma Index_here s p : HasPrefix s p = true -> Index s p = Some 0%nat.
Proof. intros H. destruct s; simpl in *; by rewrite H. Qed.

Lemma Index_cons a s p :
  HasPrefix (String a s) p = false -> Index (String a s) p = S <$> Index s p.
Proof. intros H. simpl Index. by rewrite H. Qed.

(** [Index] finds the leftmost instance. *)
Lemma Index_first_instance s p before after :
  first_instance s p before after -> Index s p = Some (String.length before).
Proof.
  intros [-> Hfirst]. induction before as [|a before IH]; simpl String.length.
  - apply Index_here. simpl. apply HasPrefix_append.
  - change (String a before +:+ p +:+ after) with (String a (before +:+ p +:+ after)) in *.
    rewrite Index_cons.
    + rewrite IH; [done |]. intros i Hi. apply (Hfirst (S i)). simpl. lia.
    + apply (Hfirst 0%nat). simpl. lia.
Qed.

Lemma Index_Some_first_instance s p j :
  Index s p = Some j ->
  first_instance s p (take j s) (drop (j + String.length p) s) /\ String.length (take j s) = j.
Proof.
  revert j. induction s as [|a s IH]; intros j.
  - simpl. destruct (HasPrefix "" p) eqn:Hp; [|done].
    intros [= <-]. destruct p; [|done]. repeat split; simpl; intros; lia.
  - simpl Index. destruct (HasPrefix (String a s) p) eqn:Hp.
    + intros [= <-]. simpl take. split; [|done]. split.
      * simpl. by apply HasPrefix_inv.
      * simpl. intros; lia.
    + destruct (Index s p) as [j'|] eqn:Hj; [|done].
      intros [= <-]. destruct (IH j' eq_refl) as [[Heq Hfirst] Hlen].
      simpl. rewrite Hlen. split; [|done]. split.
      * simpl. f_equal. exact Heq.
      * intros [|i] Hi; [done |]. simpl. apply Hfirst. simpl in Hi. lia.
Qed.

Lemma Contains_false_Index s p : Contains s p = false <-> Index s p = None.
Proof. unfold Contains. destruct (Index s p); split; congruence. Qed.

Lemma Contains_true_Index s p : Contains s p = true <-> exists j, Index s p = Some j.
Proof. unfold Contains. destruct (Index s p); split; [eauto | done | done | intros [? ?]; done]. Qed.

Lemma Contains_HasPrefix s p : HasPrefix s p = true -> Contains s p = true.
Proof. intros H. unfold Contains. by rewrite Index_here. Qed.

Lemma Contains_cons a s p :
  Contains (String a s) p = HasPrefix (String a s) p || Contains s p.
Proof.
  unfold Contains. simpl Index. destruct (HasPrefix (String a s) p); [done |].
  by destruct (Index s p).
Qed.

Lemma Replace_absent s old new n : Contains s old = false -> Replace s old new n = s.
Proof. rewrite Contains_false_Index. intros H. destruct n; simpl; by rewrite ?H. Qed.

Lemma Replace_first_instance s old new before after :
  first_instance s old before after -> Replace s old new 1 = before +:+ new +:+ after.
Proof.
  intros H. pose proof (Index_first_instance _ _ _ _ H) as Hj.
  destruct H as [-> _]. simpl. rewrite Hj, take_append.
  by rewrite drop_plus_append, drop_append.
Qed.

Lemma first_instance_prefix p t : first_instance (p +:+ t) p "" t.
Proof. split; [done |]. simpl. intros; lia. Qed.

Lemma Replace_prefix p t new : Replace (p +:+ t) p new 1 = new +:+ t.
Proof. by rewrite (Replace_first_instance _ _ _ "" t) by apply first_instance_prefix. Qed.

End StringFacts.

Section MoreStringFacts.
Implicit Types s p q t before after : string.

Lemma Contains_instance before p after : Contains (before +:+ p +:+ after) p = true.
Proof.
  induction before as [|a before IH]; simpl.
  - apply Contains_HasPrefix, HasPrefix_append.
  - rewrite Contains_cons, IH. apply orb_true_r.
Qed.

Lemma Contains_true_inv s p :
  Contains s p = true -> exists before after, first_instance s p before after.
Proof.
  intros [j Hj]%Contains_true_Index.
  apply Index_Some_first_instance in Hj as [H _]. eauto.
Qed.

(** Where a string occurs, so does each of its prefixes. *)
Lemma Contains_prefix s p q :
  HasPrefix p q = true -> Contains s p = true -> Contains s q = true.
Proof.
  intros [u ->]%HasPrefix_iff (before & after & -> & _)%Contains_true_inv.
  rewrite append_assoc. apply Contains_instance.
Qed.

Lemma Contains_prefix_false s p q :
  HasPrefix p q = true -> Contains s q = false -> Contains s p = false.
Proof.
  intros Hpq Hq. destruct (Contains s p) eqn:Hp; [|done].
  by rewrite (Contains_prefix _ _ _ Hpq Hp) in Hq.
Qed.

(** The secure scheme hides no plain one. *)
Lemma Contains_wss t : Contains ("wss://" +:+ t) "ws://" = Contains t "ws://".
Proof. simpl. by rewrite !Contains_cons. Qed.

Lemma Contains_colon_cons a s : Contains (String a s) ":" = Ascii.eqb ":" a || Contains s ":".
Proof. rewrite Contains_cons. simpl. by rewrite andb_true_r. Qed.

Lemma Split_absent s sep : Contains s sep = false -> Split s sep = [s].
Proof.
  rewrite Contains_false_Index. unfold Split. intros H.
  destruct (String.length s); simpl; by rewrite ?H.
Qed.

Lemma Split_localhost t :
  Contains t ":" = false -> Split (GoNet.JoinHostPort "localhost" t) ":" = ["localhost"; t].
Proof.
  rewrite Contains_false_Index. intros H.
  unfold Split, GoNet.JoinHostPort. simpl. by rewrite H.
Qed.

End MoreStringFacts.

Section ItoaFacts.
Import GoStrconv.

Lemma digit_not_colon d : (0 <= d < 10)%Z -> Ascii.eqb ":" (digit d) = false.
Proof.
  intros Hd.
  assert (d = 0 \/ d = 1 \/ d = 2 \/ d = 3 \/ d = 4 \/ d = 5 \/ d = 6 \/ d = 7
          \/ d = 8 \/ d = 9)%Z as Hcases by lia.
  repeat (destruct Hcases as [-> | Hcases]; [reflexivity |]). by subst.
Qed.

Lemma formatBits_colon_free fuel u acc :
  Contains acc ":" = false -> Contains (formatBits fuel u acc) ":" = false.
Proof.
  revert u acc. induction fuel as [|fuel IH]; intros u acc Hacc; simpl; [done |].
  assert (Contains (String (digit (u mod 10)) acc) ":" = false) as Hacc'.
  { rewrite Contains_colon_cons, Hacc, digit_not_colon; [done |].
    apply Z.mod_pos_bound. lia. }
  destruct (u <? 10)%Z; [done | by apply IH].
Qed.

Lemma Itoa_colon_free i : Contains (Itoa i) ":" = false.
Proof.
  unfold Itoa. destruct (i <? 0)%Z.
  - rewrite Contains_colon_cons. change (Ascii.eqb ":" "-") with false.
    by apply formatBits_colon_free.
  - by apply formatBits_colon_free.
Qed.

End ItoaFacts.

Section RewriterFacts.
Implicit Types url target pub port : string.

Lemma patterns_Some target port :
  Split target ":" !! 1%nat = Some port ->
  patterns target = Some [ "ws://" +:+ target; "ws://127.0.0.1:" +:+ port; "ws://localhost:" +:+ port ].
Proof. intros H. unfold patterns. by rewrite H. Qed.

Lemma patterns_inv target pats :
  patterns target = Some pats ->
  exists port, Split target ":" !! 1%nat = Some port
    /\ pats = [ "ws://" +:+ target; "ws://127.0.0.1:" +:+ port; "ws://localhost:" +:+ port ].
Proof.
  unfold patterns. destruct (Split target ":" !! 1%nat) as [port|]; [|done].
  intros [= <-]. eauto.
Qed.

(** The target of every client made by [NewChromeDevToolsClient]. *)
Lemma patterns_client i :
  patterns (GoNet.JoinHostPort "localhost" (GoStrconv.Itoa i))
  = Some [ "ws://localhost:" +:+ GoStrconv.Itoa i;
           "ws://127.0.0.1:" +:+ GoStrconv.Itoa i;
           "ws://localhost:" +:+ GoStrconv.Itoa i ].
Proof.
  erewrite patterns_Some; [done |].
  by rewrite Split_localhost by apply Itoa_colon_free.
Qed.

Lemma patterns_ws target pats p :
  patterns target = Some pats -> p ∈ pats -> HasPrefix p "ws://" = true.
Proof.
  intros (port & _ & ->)%patterns_inv Hp.
  repeat (apply elem_of_cons in Hp as [-> | Hp]; [done |]).
  by apply elem_of_nil in Hp.
Qed.

Lemma rewriteLoop_cons p rest url pub :
  rewriteLoop (p :: rest) url pub
  = if Contains url p then Replace url p ("wss://" +:+ pub) 1
    else rewriteLoop rest url pub.
Proof. reflexivity. Qed.

Lemma rewriteLoop_absent pats url pub :
  (forall q, q ∈ pats -> Contains url q = false) -> rewriteLoop pats url pub = url.
Proof.
  induction pats as [|p pats IH]; intros H; simpl; [done |].
  rewrite (H p) by (apply elem_of_cons; by left).
  apply IH. intros q Hq. apply H. by (apply elem_of_cons; by right).
Qed.

Lemma rewriteLoop_first earlier p later url pub before after :
  (forall q, q ∈ earlier -> Contains url q = false) ->
  first_instance url p before after ->
  rewriteLoop (earlier ++ p :: later)%list url pub = before +:+ ("wss://" +:+ pub) +:+ after.
Proof.
  intros Hearlier Hfirst.
  induction earlier as [|q earlier IH]; simpl app; rewrite rewriteLoop_cons.
  - assert (Contains url p = true) as ->.
    { destruct Hfirst as [-> _]. apply Contains_instance. }
    by apply Replace_first_instance.
  - rewrite (Hearlier q) by (apply elem_of_cons; by left).
    apply IH. intros q' Hq'. apply Hearlier. by (apply elem_of_cons; by right).
Qed.

End RewriterFacts.

Section Rewriter.
Implicit Types url target pub port suffix : string.

Lemma rewriteWebSocketURL_first target pub pats earlier p later url before after :
  patterns target = Some pats ->
  pats = (earlier ++ p :: later)%list ->
  (forall q, q ∈ earlier -> Contains url q = false) ->
  first_instance url p before after ->
  rewriteWebSocketURL url target pub = Some (before +:+ "wss://" +:+ pub +:+ after).
Proof.
  intros Hpats -> Hearlier Hfirst. unfold rewriteWebSocketURL. rewrite Hpats. simpl.
  f_equal. rewrite (rewriteLoop_first _ _ _ _ _ before after) by done.
  by rewrite append_assoc.
Qed.

Lemma rewriteWebSocketURL_absent target pub pats url :
  patterns target = Some pats ->
  (forall q, q ∈ pats -> Contains url q = false) ->
  rewriteWebSocketURL url target pub = Some url.
Proof.
  intros Hpats Habsent. unfold rewriteWebSocketURL. rewrite Hpats. simpl.
  by rewrite rewriteLoop_absent.
Qed.

Lemma rewriteWebSocketURL_is_Some target pub pats url :
  patterns target = Some pats -> is_Some (rewriteWebSocketURL url target pub).
Proof. intros Hpats. unfold rewriteWebSocketURL. rewrite Hpats. simpl. eauto. Qed.

Lemma rewriteDevURL_first target pub (m : gmap string value) devURL before after :
  m !! "devtoolsFrontendUrl" = Some (VString devURL) ->
  first_instance devURL ("ws=" +:+ target) before after ->
  rewriteDevURL target pub m !! "devtoolsFrontendUrl"
  = Some (VString (before +:+ "ws=" +:+ pub +:+ after)).
Proof.
  intros Hm Hfirst. unfold rewriteDevURL. rewrite Hm, lookup_insert_eq.
  rewrite (Replace_first_instance _ _ _ before after) by done.
  by rewrite append_assoc.
Qed.

End Rewriter.

(** C9.  Both URL rewrites touch only the leftmost instance of the pattern
    they match.  [rewriteWebSocketURL] takes the first pattern, in the order
    of the list, that occurs in the URL and replaces its leftmost instance by
    [wss://<external>]: what stands before and after it is returned as it
    was, so a later instance of the pattern stays in the result.  The
    [devtoolsFrontendUrl] rewrite does the same with the leftmost instance of
    [ws=<target>]. *)
Theorem rewrites_touch_first_instance_only target pub pats :
  patterns target = Some pats ->
  (forall url earlier p later before after,
      pats = (earlier ++ p :: later)%list ->
      (forall q, q ∈ earlier -> Contains url q = false) ->
      first_instance url p before after ->
      rewriteWebSocketURL url target pub = Some (before +:+ "wss://" +:+ pub +:+ after))
  /\ (forall url earlier p later before between rest,
      pats = (earlier ++ p :: later)%list ->
      (forall q, q ∈ earlier -> Contains url q = false) ->
      first_instance url p before (between +:+ p +:+ rest) ->
      rewriteWebSocketURL url target pub
      = Some (before +:+ "wss://" +:+ pub +:+ between +:+ p +:+ rest))
  /\ (forall (m : gmap string value) devURL before after,
      m !! devKey = Some (VString devURL) ->
      first_instance devURL ("ws=" +:+ target) before after ->
      rewriteDevURL target pub m !! devKey
      = Some (VString (before +:+ "ws=" +:+ pub +:+ after))).
Proof.
  intros Hpats. split; [| split].
  - intros. by eapply rewriteWebSocketURL_first.
  - intros. by eapply rewriteWebSocketURL_first.
  - intros. by eapply rewriteDevURL_first.
Qed.

Lemma first_instance_of_Index s p before after :
  s = before +:+ p +:+ after ->
  Index s p = Some (String.length before) ->
  first_instance s p before after.
Proof.
  intros Hs Hj. apply Index_Some_first_instance in Hj as [[Heq Hfirst] Hlen].
  split; [done |]. intros i Hi. apply Hfirst. rewrite Hlen. done.
Qed.

Lemma rewrites_touch_first_instance_only_witness :
  rewriteWebSocketURL "ws://127.0.0.1:9222/devtools/page/A?peer=ws://127.0.0.1:9222/x"
    "localhost:9222" "9223-host.example"
  = Some "wss://9223-host.example/devtools/page/A?peer=ws://127.0.0.1:9222/x"
  /\ rewriteDevURL "localhost:9222" "9223-host.example"
       (<["devtoolsFrontendUrl" := VString "/inspector.html?ws=localhost:9222/p/A&alt=ws=localhost:9222"]> ∅)
       !! "devtoolsFrontendUrl"
     = Some (VString "/inspector.html?ws=9223-host.example/p/A&alt=ws=localhost:9222").
Proof.
  destruct (rewrites_touch_first_instance_only "localhost:9222" "9223-host.example"
              ["ws://localhost:9222"; "ws://127.0.0.1:9222"; "ws://localhost:9222"]
              eq_refl) as (_ & Hws & Hdev).
  split.
  - apply (Hws _ ["ws://localhost:9222"] "ws://127.0.0.1:9222" ["ws://localhost:9222"]
             "" "/devtools/page/A?peer=" "/x").
    + reflexivity.
    + intros q Hq. apply list_elem_of_singleton in Hq as ->. reflexivity.
    + apply first_instance_of_Index; reflexivity.
  - apply Hdev with (devURL := "/inspector.html?ws=localhost:9222/p/A&alt=ws=localhost:9222")
                    (before := "/inspector.html?") (after := "/p/A&alt=ws=localhost:9222").
    + reflexivity.
    + apply first_instance_of_Index; reflexivity.
Defined.

(** C2 (as amended).  A URL that begins with [ws://<target>] is returned as
    [wss://<external>] followed by its unchanged suffix.  A URL that begins
    with [ws://127.0.0.1:<port>] is, too, when [ws://<target>] does not occur
    in it; and one that begins with [ws://localhost:<port>] when neither of
    the two earlier patterns occurs in it.  (The patterns are matched
    anywhere in the URL, in order, not only at its start.) *)
Theorem rewrite_recognized_prefix target pub port suffix :
  Split target ":" !! 1%nat = Some port ->
  rewriteWebSocketURL (("ws://" +:+ target) +:+ suffix) target pub
    = Some ("wss://" +:+ pub +:+ suffix)
  /\ (Contains (("ws://127.0.0.1:" +:+ port) +:+ suffix) ("ws://" +:+ target) = false ->
      rewriteWebSocketURL (("ws://127.0.0.1:" +:+ port) +:+ suffix) target pub
      = Some ("wss://" +:+ pub +:+ suffix))
  /\ (Contains (("ws://localhost:" +:+ port) +:+ suffix) ("ws://" +:+ target) = false ->
      Contains (("ws://localhost:" +:+ port) +:+ suffix) ("ws://127.0.0.1:" +:+ port) = false ->
      rewriteWebSocketURL (("ws://localhost:" +:+ port) +:+ suffix) target pub
      = Some ("wss://" +:+ pub +:+ suffix)).
Proof.
  intros Hpats%patterns_Some. repeat split.
  - apply (rewriteWebSocketURL_first _ _ _ [] _ _ _ "" suffix Hpats eq_refl).
    + intros q Hq. by apply elem_of_nil in Hq.
    + apply first_instance_prefix.
  - intros H1.
    apply (rewriteWebSocketURL_first _ _ _ [_] _ _ _ "" suffix Hpats eq_refl).
    + intros q Hq. by apply list_elem_of_singleton in Hq as ->.
    + apply first_instance_prefix.
  - intros H1 H2.
    apply (rewriteWebSocketURL_first _ _ _ [_; _] _ [] _ "" suffix Hpats eq_refl).
    + intros q Hq. apply elem_of_cons in Hq as [-> | Hq]; [done |].
      by apply list_elem_of_singleton in Hq as ->.
    + apply first_instance_prefix.
Qed.

Lemma rewrite_recognized_prefix_witness :
  rewriteWebSocketURL "ws://localhost:9222/devtools/browser/abc123"
    "localhost:9222" "9223-host.example"
  = Some "wss://9223-host.example/devtools/browser/abc123"
  /\ rewriteWebSocketURL "ws://127.0.0.1:9222/devtools/browser/abc123"
       "localhost:9222" "9223-host.example"
     = Some "wss://9223-host.example/devtools/browser/abc123"
  /\ rewriteWebSocketURL "ws://localhost:9223/devtools/browser/abc123"
       "proxy:9223:9222" "9223-host.example"
     = Some "wss://9223-host.example/devtools/browser/abc123".
Proof.
  destruct (rewrite_recognized_prefix "localhost:9222" "9223-host.example" "9222"
              "/devtools/browser/abc123" eq_refl) as (H1 & H2 & _).
  destruct (rewrite_recognized_prefix "proxy:9223:9222" "9223-host.example" "9223"
              "/devtools/browser/abc123" eq_refl) as (_ & _ & H3).
  split; [exact H1 |]. split; [exact (H2 eq_refl) | exact (H3 eq_refl eq_refl)].
Defined.

(** C2, as stated, fails: this URL begins with the recognized prefix
    [ws://127.0.0.1:9222], and what is replaced is the instance of
    [ws://localhost:9222] in its query; the prefix stays. *)
Lemma rewrite_prefix_not_replaced :
  HasPrefix "ws://127.0.0.1:9222/devtools/page/A?peer=ws://localhost:9222"
    "ws://127.0.0.1:9222" = true
  /\ rewriteWebSocketURL "ws://127.0.0.1:9222/devtools/page/A?peer=ws://localhost:9222"
       (targetHostPort (NewChromeDevToolsClient 9222 30 0)) "9223-host.example"
     = Some "ws://127.0.0.1:9222/devtools/page/A?peer=wss://9223-host.example"
  /\ rewriteWebSocketURL "ws://127.0.0.1:9222/devtools/page/A?peer=ws://localhost:9222"
       (targetHostPort (NewChromeDevToolsClient 9222 30 0)) "9223-host.example"
     <> Some ("wss://9223-host.example" +:+ "/devtools/page/A?peer=ws://localhost:9222").
Proof. split; [| split]; [reflexivity | vm_compute; reflexivity | vm_compute; discriminate]. Qed.

(** C3 (as amended).  A URL in which none of the three patterns occurs
    anywhere is returned unchanged.  A rewritten URL
    [wss://<external><suffix>] is returned unchanged by a second application
    whenever [ws://] does not occur in [<external><suffix>]. *)
Theorem rewrite_unrecognized_unchanged_and_settles target pub pats :
  patterns target = Some pats ->
  (forall url,
      (forall q, q ∈ pats -> Contains url q = false) ->
      rewriteWebSocketURL url target pub = Some url)
  /\ (forall url suffix,
      rewriteWebSocketURL url target pub = Some ("wss://" +:+ pub +:+ suffix) ->
      Contains (pub +:+ suffix) "ws://" = false ->
      rewriteWebSocketURL ("wss://" +:+ pub +:+ suffix) target pub
      = Some ("wss://" +:+ pub +:+ suffix)).
Proof.
  intros Hpats. split.
  - intros url Habsent. by eapply rewriteWebSocketURL_absent.
  - intros url suffix _ Hplain. eapply rewriteWebSocketURL_absent; [done |].
    intros q Hq. apply (Contains_prefix_false _ _ "ws://").
    + by eapply patterns_ws.
    + by rewrite Contains_wss.
Qed.

Lemma rewrite_unrecognized_unchanged_and_settles_witness :
  rewriteWebSocketURL "wss://elsewhere.example:9222/devtools/browser/abc123"
    "localhost:9222" "9223-host.example"
  = Some "wss://elsewhere.example:9222/devtools/browser/abc123"
  /\ rewriteWebSocketURL "wss://9223-host.example/devtools/browser/abc123"
       "localhost:9222" "9223-host.example"
     = Some "wss://9223-host.example/devtools/browser/abc123".
Proof.
  destruct (rewrite_unrecognized_unchanged_and_settles "localhost:9222" "9223-host.example"
              ["ws://localhost:9222"; "ws://127.0.0.1:9222"; "ws://localhost:9222"]
              eq_refl) as [Hsame Hagain].
  split.
  - apply Hsame. intros q Hq.
    repeat (apply elem_of_cons in Hq as [-> | Hq]; [reflexivity |]).
    by apply elem_of_nil in Hq.
  - apply (Hagain "ws://127.0.0.1:9222/devtools/browser/abc123" "/devtools/browser/abc123");
      reflexivity.
Defined.

(** C3, as stated, fails: the URL holds the internal address twice; the
    first application replaces the leading instance, and the second
    application changes the result again. *)
Lemma rewrite_twice_differs :
  rewriteWebSocketURL "ws://localhost:9222/devtools/page/A?peer=ws://localhost:9222"
    (targetHostPort (NewChromeDevToolsClient 9222 30 0)) "9223-host.example"
  = Some "wss://9223-host.example/devtools/page/A?peer=ws://localhost:9222"
  /\ rewriteWebSocketURL "wss://9223-host.example/devtools/page/A?peer=ws://localhost:9222"
       (targetHostPort (NewChromeDevToolsClient 9222 30 0)) "9223-host.example"
     = Some "wss://9223-host.example/devtools/page/A?peer=wss://9223-host.example"
  /\ rewriteWebSocketURL "wss://9223-host.example/devtools/page/A?peer=ws://localhost:9222"
       (targetHostPort (NewChromeDevToolsClient 9222 30 0)) "9223-host.example"
     <> Some "wss://9223-host.example/devtools/page/A?peer=ws://localhost:9222".
Proof. split; [| split]; [vm_compute; reflexivity .. | vm_compute; discriminate]. Qed.

(** The handlers look a field up and act only when it holds a string: the
    cases of such a lookup. *)
Ltac string_field lookup url H :=
  destruct lookup as [[| | | |url| |]|] eqn:H.

Section DocumentFacts.
Implicit Types target pub : string.
Implicit Types m : gmap string value.

Lemma serving_patterns port c :
  serving port c ->
  patterns (targetHostPort c)
  = Some [ "ws://" +:+ targetHostPort c;
           "ws://127.0.0.1:" +:+ GoStrconv.Itoa port;
           "ws://localhost:" +:+ GoStrconv.Itoa port ].
Proof.
  unfold serving. intros ->. apply patterns_Some.
  by rewrite Split_localhost by apply Itoa_colon_free.
Qed.

Lemma serving_New port timeoutSec now : serving port (NewChromeDevToolsClient port timeoutSec now).
Proof. reflexivity. Qed.

Lemma agree_outside_refl keys d : agree_outside keys d d.
Proof. destruct d; unfold agree_outside; auto. Qed.

Lemma agree_outside_insert keys m k v v' :
  m !! k = Some v -> k ∈ keys -> agree_outside keys (Map m) (Map (<[k := v']> m)).
Proof.
  intros Hk Hin. split.
  - apply dom_insert_lookup_L. eauto.
  - intros k' Hk'. apply lookup_insert_ne. intros ->. done.
Qed.

Lemma agree_outside_trans keys d1 d2 d3 :
  agree_outside keys d1 d2 -> agree_outside keys d2 d3 -> agree_outside keys d1 d3.
Proof.
  destruct d1, d2, d3; unfold agree_outside; try done.
  intros [Hd1 H1] [Hd2 H2]. split; [congruence |].
  intros k Hk. rewrite H2, H1; done.
Qed.

Lemma rewriteVersionData_agree target pub pats d :
  patterns target = Some pats ->
  exists d', rewriteVersionData target pub d = Some d' /\ agree_outside [wsKey] d d'.
Proof.
  intros Hpats. destruct d as [|m]; simpl; [by eexists |].
  string_field (m !! "webSocketDebuggerUrl") url Hws;
    try (eexists; split; [done | apply agree_outside_refl]).
  destruct (rewriteWebSocketURL_is_Some target pub pats url Hpats) as [new ->].
  simpl. eexists; split; [done |].
  eapply agree_outside_insert; [done |]. by apply list_elem_of_singleton.
Qed.

Lemma rewriteDevURL_agree target pub m :
  agree_outside [wsKey; devKey] (Map m) (Map (rewriteDevURL target pub m)).
Proof.
  unfold rewriteDevURL.
  string_field (m !! "devtoolsFrontendUrl") url Hdev;
    try apply agree_outside_refl.
  eapply agree_outside_insert; [done |].
  apply elem_of_cons; right. by apply list_elem_of_singleton.
Qed.

Lemma rewriteTarget_agree target pub pats e :
  patterns target = Some pats ->
  exists e', rewriteTarget target pub e = Some e' /\ agree_outside [wsKey; devKey] e e'.
Proof.
  intros Hpats. destruct e as [|m]; simpl; [by eexists |].
  pose proof (rewriteDevURL_agree target pub m) as Hdev.
  string_field (rewriteDevURL target pub m !! "webSocketDebuggerUrl") url Hws;
    try (eexists; split; [done | exact Hdev]).
  destruct (rewriteWebSocketURL_is_Some target pub pats url Hpats) as [new ->].
  simpl. eexists; split; [done |].
  eapply agree_outside_trans; [exact Hdev |].
  eapply agree_outside_insert; [done |]. apply elem_of_cons; by left.
Qed.

Lemma rewriteTargets_agree target pub pats d :
  patterns target = Some pats ->
  exists d', rewriteTargets target pub d = Some d' /\ same_targets [wsKey; devKey] d d'.
Proof.
  intros Hpats. destruct d as [|l]; simpl; [by eexists |].
  destruct (mapM (rewriteTarget target pub) l) as [l'|] eqn:Hl.
  - simpl. eexists; split; [done |].
    apply mapM_Some_1 in Hl. split.
    + symmetry. by eapply Forall2_length.
    + intros i e He.
      destruct (Forall2_lookup_l _ _ _ _ _ Hl He) as (e' & He' & Hee').
      exists e'. split; [done |].
      destruct (rewriteTarget_agree target pub pats e Hpats) as (e'' & Heq & Hagree).
      congruence.
  - apply mapM_None_1, Exists_exists in Hl as (e & _ & He).
    destruct (rewriteTarget_agree target pub pats e Hpats) as (e' & Heq & _).
    congruence.
Qed.

End DocumentFacts.

(** C4 (as amended).  When the target's body decodes, the version handler
    answers 200 with a document that has the keys of the decoded one and the
    same value under every key but [webSocketDebuggerUrl]; the list handler
    answers 200 with as many entries, in the same order, each with the keys
    of its source and the same values outside [webSocketDebuggerUrl] and
    [devtoolsFrontendUrl] (an empty list stays empty, nil stays nil).  The
    values are the decoded ones, as [json.Unmarshal] stores them in a
    [map[string]interface{}]: what the decoder does not keep of the target's
    text is not delivered. *)
Theorem discovery_documents_keep_other_fields env c r port body :
  serving port c ->
  (forall versionData,
      client_Get env (versionURL c) = FetchedBody body ->
      json_Unmarshal_map env body = Ok versionData ->
      exists versionData',
        agree_outside [wsKey] versionData versionData'
        /\ forall len,
            json_Marshal env (value_of_map versionData') = Ok len ->
            handleJsonVersion env c r
            = Done c {| StatusCode := 200;
                        RespHeader := [("Content-Type", "application/json");
                                       ("Content-Length", GoStrconv.Itoa (Z.of_nat len))];
                        Body := JSON (value_of_map versionData') |})
  /\ (forall targetsData,
      client_Get env (listURL c r) = FetchedBody body ->
      json_Unmarshal_slice env body = Ok targetsData ->
      exists targetsData',
        same_targets [wsKey; devKey] targetsData targetsData'
        /\ forall len,
            json_Marshal env (value_of_slice targetsData') = Ok len ->
            handleJsonList env c r
            = Done c {| StatusCode := 200;
                        RespHeader := [("Content-Type", "application/json");
                                       ("Content-Length", GoStrconv.Itoa (Z.of_nat len))];
                        Body := JSON (value_of_slice targetsData') |}).
Proof.
  intros Hpats%serving_patterns. split.
  - intros versionData Hget Hdec.
    destruct (rewriteVersionData_agree (targetHostPort c) (Host r) _ versionData Hpats)
      as (versionData' & Hrw & Hagree).
    exists versionData'. split; [done |]. intros len Henc.
    unfold handleJsonVersion. fold (versionURL c). by rewrite Hget, Hdec, Hrw, Henc.
  - intros targetsData Hget Hdec.
    destruct (rewriteTargets_agree (targetHostPort c) (Host r) _ targetsData Hpats)
      as (targetsData' & Hrw & Hagree).
    exists targetsData'. split; [done |]. intros len Henc.
    unfold handleJsonList. fold (listURL c r). by rewrite Hget, Hdec, Hrw, Henc.
Qed.

Lemma discovery_documents_keep_other_fields_witness :
  (exists versionData',
      agree_outside [wsKey] (Map Sample.versionDoc) versionData'
      /\ handleJsonVersion Sample.up Sample.client (Sample.get "/json/version")
         = Done Sample.client
             {| StatusCode := 200;
                RespHeader := [("Content-Type", "application/json");
                               ("Content-Length", "128")];
                Body := JSON (value_of_map versionData') |})
  /\ (exists targetsData',
      same_targets [wsKey; devKey] (Slice [Map Sample.pageDoc]) targetsData'
      /\ handleJsonList Sample.up Sample.client (Sample.get "/json")
         = Done Sample.client
             {| StatusCode := 200;
                RespHeader := [("Content-Type", "application/json");
                               ("Content-Length", "128")];
                Body := JSON (value_of_slice targetsData') |}).
Proof.
  split.
  - destruct (discovery_documents_keep_other_fields Sample.up Sample.client
                (Sample.get "/json/version") 9222 Sample.versionBody eq_refl) as [Hversion _].
    destruct (Hversion (Map Sample.versionDoc) eq_refl eq_refl) as (d' & Hagree & Hrun).
    exists d'. split; [exact Hagree | apply (Hrun 128%nat); reflexivity].
  - destruct (discovery_documents_keep_other_fields Sample.up Sample.client
                (Sample.get "/json") 9222 Sample.listBody eq_refl) as [_ Hlist].
    destruct (Hlist (Slice [Map Sample.pageDoc]) eq_refl eq_refl) as (d' & Hagree & Hrun).
    exists d'. split; [exact Hagree | apply (Hrun 128%nat); reflexivity].
Defined.

(** C4, as stated, fails: the document delivered is not equal to the
    target's in the field [build].  The target sends
    [{"build":9007199254740993}]; the number is decoded to the nearest
    [float64], which is 9007199254740992, and that is what is encoded and
    delivered: the answer is the one given for a target that sends
    [{"build":9007199254740992}]. *)
Lemma version_number_is_rounded :
  BigNumber.body "9007199254740993" <> BigNumber.body "9007199254740992"
  /\ decimal_value "9007199254740993" <> decimal_value "9007199254740992"
  /\ handleJsonVersion (BigNumber.env "9007199254740993") Sample.client
       (Sample.get "/json/version")
     = Done Sample.client
         {| StatusCode := 200;
            RespHeader := [("Content-Type", "application/json"); ("Content-Length", "26")];
            Body := JSON (VMap (<["build" := BigNumber.number "9007199254740992"]> ∅)) |}
  /\ handleJsonVersion (BigNumber.env "9007199254740993") Sample.client
       (Sample.get "/json/version")
     = handleJsonVersion (BigNumber.env "9007199254740992") Sample.client
         (Sample.get "/json/version").
Proof.
  split; [vm_compute; discriminate |].
  split; [vm_compute; discriminate |].
  split; vm_compute; reflexivity.
Qed.

Section CounterFacts.

Lemma int64_incr_below n : (- 2 ^ 63 <= n < 2 ^ 63 - 1)%Z -> int64_incr n = (n + 1)%Z.
Proof.
  intros Hn. unfold int64_incr, int64_wrap.
  rewrite Z.mod_small by lia. lia.
Qed.

Lemma int64_incr_max : int64_incr (2 ^ 63 - 1) = (- 2 ^ 63)%Z.
Proof. reflexivity. Qed.

Lemma handleHealth_client env c r : client_of (handleHealth env c r) = c.
Proof. unfold handleHealth. by destruct (client_Get env _). Qed.

Lemma handleMetrics_client env c r : client_of (handleMetrics env c r) = c.
Proof. reflexivity. Qed.

Lemma proxy_ServeHTTP_client env c r : client_of (proxy_ServeHTTP env c r) = c.
Proof. unfold proxy_ServeHTTP. by destruct (transport_RoundTrip env _) as [[]|]. Qed.

Lemma handleJsonVersion_requestCount env c r :
  requestCount (client_of (handleJsonVersion env c r)) = requestCount c.
Proof.
  unfold handleJsonVersion.
  destruct (client_Get env _); [done | done |].
  destruct (json_Unmarshal_map env _); [| done].
  destruct (rewriteVersionData _ _ _); [| done].
  by destruct (json_Marshal env _).
Qed.

Lemma handleJsonList_requestCount env c r :
  requestCount (client_of (handleJsonList env c r)) = requestCount c.
Proof.
  unfold handleJsonList.
  destruct (client_Get env _); [done | done |].
  destruct (json_Unmarshal_slice env _); [| done].
  destruct (rewriteTargets _ _ _); [| done].
  by destruct (json_Marshal env _).
Qed.

Lemma ServeHTTP_requestCount env c r :
  requestCount (client_of (ServeHTTP env c r)) = int64_incr (requestCount c).
Proof.
  unfold ServeHTTP. destruct (dispatch env r).
  - by rewrite handleHealth_client.
  - done.
  - by rewrite handleJsonVersion_requestCount.
  - by rewrite handleJsonList_requestCount.
  - by rewrite proxy_ServeHTTP_client.
  - by rewrite proxy_ServeHTTP_client.
Qed.

End CounterFacts.

(** C10.  [ServeHTTP] increments the request counter once, whatever the
    request and however it ends, and it does so before the handler runs: the
    handler receives the incremented client and leaves the counter alone.  So
    the [requests_total] of a [/metrics] answer already counts the request
    that asked for it.  (The counter is an [int64]: the increment is by one
    until it wraps at [2^63 - 1].) *)
Theorem every_request_counted_before_dispatch env c r :
  requestCount (client_of (ServeHTTP env c r)) = int64_incr (requestCount c)
  /\ ((- 2 ^ 63 <= requestCount c < 2 ^ 63 - 1)%Z ->
      requestCount (client_of (ServeHTTP env c r)) = (requestCount c + 1)%Z)
  /\ (dispatch env r = ToMetrics ->
      exists w (m : gmap string value),
        ServeHTTP env c r = Done (incRequestCount c) w
        /\ StatusCode w = 200%Z
        /\ Body w = JSONLine (VMap m)
        /\ m !! "requests_total" = Some (VInt64 (int64_incr (requestCount c))))
  /\ ServeHTTP env c r
     = match dispatch env r with
       | ToHealth => handleHealth env (incRequestCount c) r
       | ToMetrics => handleMetrics env (incRequestCount c) r
       | ToJsonVersion => handleJsonVersion env (incRequestCount c) r
       | ToJsonList => handleJsonList env (incRequestCount c) r
       | ToWebSocketProxy => proxy_ServeHTTP env (incRequestCount c) r
       | ToProxy => proxy_ServeHTTP env (incRequestCount c) r
       end.
Proof.
  split; [apply ServeHTTP_requestCount |].
  split; [intros Hn; rewrite ServeHTTP_requestCount; by apply int64_incr_below |].
  split; [| reflexivity].
  intros Hroute. unfold ServeHTTP. rewrite Hroute. unfold handleMetrics.
  eexists _, _. split; [reflexivity |]. split; [reflexivity |]. split; [reflexivity |].
  apply lookup_insert_eq.
Qed.

Lemma every_request_counted_before_dispatch_witness :
  requestCount (client_of (ServeHTTP Sample.down Sample.client (Sample.get "/json/version")))
  = 1%Z
  /\ exists w (m : gmap string value),
      ServeHTTP Sample.up Sample.client (Sample.get "/metrics")
      = Done (incRequestCount Sample.client) w
      /\ StatusCode w = 200%Z
      /\ Body w = JSONLine (VMap m)
      /\ m !! "requests_total" = Some (VInt64 1).
Proof.
  split.
  - destruct (every_request_counted_before_dispatch Sample.down Sample.client
                (Sample.get "/json/version")) as (_ & Hplus & _).
    apply Hplus. simpl. lia.
  - destruct (every_request_counted_before_dispatch Sample.up Sample.client
                (Sample.get "/metrics")) as (_ & _ & Hmetrics & _).
    apply Hmetrics. reflexivity.
Defined.

Section FailureFacts.

Lemma one_more_error_inc c : one_more_error c (incErrorCount c).
Proof.
  unfold one_more_error. simpl.
  refine (conj eq_refl (conj eq_refl (conj eq_refl (conj eq_refl (conj _ _))))).
  - apply int64_incr_below.
  - intros ->. apply int64_incr_max.
Qed.

Lemma failed_with_http_Error c code msg :
  failed_with c code msg (Done (incErrorCount c) (http_Error msg code)).
Proof. exists (incErrorCount c). split; [reflexivity | apply one_more_error_inc]. Qed.

End FailureFacts.

(** C5.  In both discovery handlers a failed GET to the target is answered
    with 502 and a body that fails to decode with 500.  Either way the error
    counter goes up by one and nothing else in the client changes (the
    counter is an [int64]: up by one unless it was [2^63 - 1], where it wraps
    to [- 2^63]), and what is written is the plain-text error message, not a
    document. *)
Theorem discovery_failures env c r :
  (forall err,
      client_Get env (versionURL c) = GetError err ->
      handleJsonVersion env c r
      = Done (incErrorCount c) (http_Error ("Failed to get JSON version: " +:+ err) 502)
      /\ failed_with c 502 ("Failed to get JSON version: " +:+ err)
           (handleJsonVersion env c r))
  /\ (forall body err,
      client_Get env (versionURL c) = FetchedBody body ->
      json_Unmarshal_map env body = Err err ->
      handleJsonVersion env c r
      = Done (incErrorCount c)
             (http_Error ("Failed to unmarshal response body: " +:+ err) 500)
      /\ failed_with c 500 ("Failed to unmarshal response body: " +:+ err)
           (handleJsonVersion env c r))
  /\ (forall err,
      client_Get env (listURL c r) = GetError err ->
      handleJsonList env c r
      = Done (incErrorCount c) (http_Error ("Failed to get JSON list: " +:+ err) 502)
      /\ failed_with c 502 ("Failed to get JSON list: " +:+ err) (handleJsonList env c r))
  /\ (forall body err,
      client_Get env (listURL c r) = FetchedBody body ->
      json_Unmarshal_slice env body = Err err ->
      handleJsonList env c r
      = Done (incErrorCount c)
             (http_Error ("Failed to unmarshal response body: " +:+ err) 500)
      /\ failed_with c 500 ("Failed to unmarshal response body: " +:+ err)
           (handleJsonList env c r))
  /\ errorCount (incErrorCount c) = int64_incr (errorCount c)
  /\ ((- 2 ^ 63 <= errorCount c < 2 ^ 63 - 1)%Z ->
      errorCount (incErrorCount c) = (errorCount c + 1)%Z)
  /\ (forall msg code,
      StatusCode (http_Error msg code) = code
      /\ Body (http_Error msg code) = Raw (msg +:+ LF)).
Proof.
  assert (forall o code msg,
            o = Done (incErrorCount c) (http_Error msg code) ->
            o = Done (incErrorCount c) (http_Error msg code) /\ failed_with c code msg o)
    as Hfailed.
  { intros o code msg ->. split; [done | apply failed_with_http_Error]. }
  refine (conj _ (conj _ (conj _ (conj _ (conj eq_refl (conj _ _)))))).
  - intros err Hget. apply Hfailed.
    unfold handleJsonVersion. fold (versionURL c). by rewrite Hget.
  - intros body err Hget Hdec. apply Hfailed.
    unfold handleJsonVersion. fold (versionURL c). by rewrite Hget, Hdec.
  - intros err Hget. apply Hfailed.
    unfold handleJsonList. fold (listURL c r). by rewrite Hget.
  - intros body err Hget Hdec. apply Hfailed.
    unfold handleJsonList. fold (listURL c r). by rewrite Hget, Hdec.
  - apply int64_incr_below.
  - done.
Qed.

Lemma discovery_failures_witness :
  handleJsonVersion Sample.down Sample.client (Sample.get "/json/version")
  = Done (incErrorCount Sample.client)
         (http_Error "Failed to get JSON version: connection refused" 502)
  /\ handleJsonVersion Sample.garbled Sample.client (Sample.get "/json/version")
     = Done (incErrorCount Sample.client)
            (http_Error "Failed to unmarshal response body: invalid character" 500)
  /\ handleJsonList Sample.down Sample.client (Sample.get "/json/list")
     = Done (incErrorCount Sample.client)
            (http_Error "Failed to get JSON list: connection refused" 502)
  /\ handleJsonList Sample.garbled Sample.client (Sample.get "/json/list")
     = Done (incErrorCount Sample.client)
            (http_Error "Failed to unmarshal response body: invalid character" 500)
  /\ failed_with Sample.client 502 "Failed to get JSON version: connection refused"
       (handleJsonVersion Sample.down Sample.client (Sample.get "/json/version"))
  /\ failed_with Sample.client 500 "Failed to unmarshal response body: invalid character"
       (handleJsonList Sample.garbled Sample.client (Sample.get "/json/list"))
  /\ errorCount (incErrorCount Sample.client) = 1%Z.
Proof.
  destruct (discovery_failures Sample.down Sample.client (Sample.get "/json/version"))
    as (Hget & _ & _ & _ & _ & Hplus & _).
  destruct (discovery_failures Sample.garbled Sample.client (Sample.get "/json/version"))
    as (_ & Hdec & _).
  destruct (discovery_failures Sample.down Sample.client (Sample.get "/json/list"))
    as (_ & _ & Hget' & _).
  destruct (discovery_failures Sample.garbled Sample.client (Sample.get "/json/list"))
    as (_ & _ & _ & Hdec' & _).
  split; [exact (proj1 (Hget "connection refused" eq_refl)) |].
  split; [exact (proj1 (Hdec Sample.notJSON "invalid character" eq_refl eq_refl)) |].
  split; [exact (proj1 (Hget' "connection refused" eq_refl)) |].
  split; [exact (proj1 (Hdec' Sample.notJSON "invalid character" eq_refl eq_refl)) |].
  split; [exact (proj2 (Hget "connection refused" eq_refl)) |].
  split; [exact (proj2 (Hdec' Sample.notJSON "invalid character" eq_refl eq_refl)) |].
  apply Hplus. simpl. lia.
Defined.

Section RouterFacts.

Lemma dispatch_not_get env r :
  Method r <> MethodGet ->
  dispatch env r = if isWebSocketUpgrade env r then ToWebSocketProxy else ToProxy.
Proof.
  intros Hm%String.eqb_neq. unfold dispatch. by rewrite Hm.
Qed.

Lemma dispatch_other_path env r :
  URL_Path r ∉ special_paths ->
  dispatch env r = if isWebSocketUpgrade env r then ToWebSocketProxy else ToProxy.
Proof.
  unfold special_paths. rewrite !not_elem_of_cons.
  intros (H1 & H2 & H3 & H4 & H5 & H6 & H7 & _).
  apply String.eqb_neq in H1, H2, H3, H4, H5, H6, H7.
  unfold dispatch. rewrite H1, H2, H3, H4, H5, H6, H7.
  by destruct (String.eqb (Method r) MethodGet).
Qed.

Lemma isWebSocketUpgrade_spec env r :
  isWebSocketUpgrade env r = true
  <-> ToLower (unicode_ToLower env) (Header_Get (Header r) "Upgrade") = "websocket"
      /\ Contains (ToLower (unicode_ToLower env) (Header_Get (Header r) "Connection"))
           "upgrade" = true.
Proof.
  unfold isWebSocketUpgrade. by rewrite andb_true_iff, String.eqb_eq.
Qed.

End RouterFacts.

(** C6.  The router takes the first rule that matches: GET on [/health],
    on [/metrics], on [/json/version] or [/json/version/], on [/json],
    [/json/] or [/json/list] go to their handlers; a request with any other
    method, or on any other path, goes to the reverse proxy, be it a
    WebSocket upgrade ([Upgrade] equal to [websocket] and [Connection]
    containing [upgrade], both compared in lower case) or not. *)
Theorem router_first_match_wins env c r :
  (Method r = "GET" -> URL_Path r = "/health" ->
   dispatch env r = ToHealth
   /\ ServeHTTP env c r = handleHealth env (incRequestCount c) r)
  /\ (Method r = "GET" -> URL_Path r = "/metrics" ->
      dispatch env r = ToMetrics
      /\ ServeHTTP env c r = handleMetrics env (incRequestCount c) r)
  /\ (Method r = "GET" -> URL_Path r = "/json/version" \/ URL_Path r = "/json/version/" ->
      dispatch env r = ToJsonVersion
      /\ ServeHTTP env c r = handleJsonVersion env (incRequestCount c) r)
  /\ (Method r = "GET" ->
      URL_Path r = "/json" \/ URL_Path r = "/json/" \/ URL_Path r = "/json/list" ->
      dispatch env r = ToJsonList
      /\ ServeHTTP env c r = handleJsonList env (incRequestCount c) r)
  /\ (Method r <> "GET" \/ URL_Path r ∉ special_paths ->
      dispatch env r = (if isWebSocketUpgrade env r then ToWebSocketProxy else ToProxy)
      /\ ServeHTTP env c r = proxy_ServeHTTP env (incRequestCount c) r)
  /\ (isWebSocketUpgrade env r = true
      <-> ToLower (unicode_ToLower env) (Header_Get (Header r) "Upgrade") = "websocket"
          /\ Contains (ToLower (unicode_ToLower env) (Header_Get (Header r) "Connection"))
               "upgrade" = true).
Proof.
  assert (forall h, dispatch env r = h -> ServeHTTP env c r
            = match h with
              | ToHealth => handleHealth env (incRequestCount c) r
              | ToMetrics => handleMetrics env (incRequestCount c) r
              | ToJsonVersion => handleJsonVersion env (incRequestCount c) r
              | ToJsonList => handleJsonList env (incRequestCount c) r
              | _ => proxy_ServeHTTP env (incRequestCount c) r
              end) as Hserve.
  { intros h <-. unfold ServeHTTP. by destruct (dispatch env r). }
  refine (conj _ (conj _ (conj _ (conj _ (conj _ _))))).
  - intros Hm Hp.
    assert (dispatch env r = ToHealth) as H by (unfold dispatch; by rewrite Hm, Hp).
    split; [done | by apply (Hserve _ H)].
  - intros Hm Hp.
    assert (dispatch env r = ToMetrics) as H by (unfold dispatch; by rewrite Hm, Hp).
    split; [done | by apply (Hserve _ H)].
  - intros Hm Hp.
    assert (dispatch env r = ToJsonVersion) as H
      by (unfold dispatch; destruct Hp as [Hp | Hp]; by rewrite Hm, Hp).
    split; [done | by apply (Hserve _ H)].
  - intros Hm Hp.
    assert (dispatch env r = ToJsonList) as H
      by (unfold dispatch; destruct Hp as [Hp | [Hp | Hp]]; by rewrite Hm, Hp).
    split; [done | by apply (Hserve _ H)].
  - intros Hother.
    assert (dispatch env r = if isWebSocketUpgrade env r then ToWebSocketProxy else ToProxy) as H.
    { destruct Hother; [by apply dispatch_not_get | by apply dispatch_other_path]. }
    split; [done |]. rewrite (Hserve _ H). by destruct (isWebSocketUpgrade env r).
  - apply isWebSocketUpgrade_spec.
Qed.

Lemma router_first_match_wins_witness :
  dispatch Sample.up (Sample.get "/health") = ToHealth
  /\ dispatch Sample.up (Sample.get "/metrics") = ToMetrics
  /\ dispatch Sample.up (Sample.get "/json/version/") = ToJsonVersion
  /\ dispatch Sample.up (Sample.get "/json/list") = ToJsonList
  /\ dispatch Sample.up (Sample.upgrade "/devtools/page/XYZ") = ToWebSocketProxy
  /\ dispatch Sample.up {| Method := "POST"; URL_Path := "/json/version";
                 Host := "9223-host.example"; Header := ∅ |} = ToProxy
  /\ isWebSocketUpgrade Sample.up (Sample.upgrade "/devtools/page/XYZ") = true.
Proof.
  pose proof (router_first_match_wins Sample.up Sample.client) as H.
  destruct (H (Sample.get "/health")) as (H1 & _).
  destruct (H (Sample.get "/metrics")) as (_ & H2 & _).
  destruct (H (Sample.get "/json/version/")) as (_ & _ & H3 & _).
  destruct (H (Sample.get "/json/list")) as (_ & _ & _ & H4 & _).
  destruct (H (Sample.upgrade "/devtools/page/XYZ")) as (_ & _ & _ & _ & H5 & H5').
  destruct (H {| Method := "POST"; URL_Path := "/json/version";
                 Host := "9223-host.example"; Header := ∅ |}) as (_ & _ & _ & _ & H6 & _).
  split; [exact (proj1 (H1 eq_refl eq_refl)) |].
  split; [exact (proj1 (H2 eq_refl eq_refl)) |].
  split; [exact (proj1 (H3 eq_refl (or_intror eq_refl))) |].
  split; [exact (proj1 (H4 eq_refl (or_intror (or_intror eq_refl)))) |].
  split.
  { refine (proj1 (H5 (or_intror _))). unfold special_paths.
    rewrite !not_elem_of_cons. repeat split; try discriminate. apply not_elem_of_nil. }
  split.
  { refine (proj1 (H6 (or_introl _))). discriminate. }
  apply H5'. split; reflexivity.
Defined.

(** C7.  A request the reverse proxy handles increments the request
    counter; when the transport to the target fails, the caller gets the
    proxy's 502 and the error counter stays as it was. *)
Theorem forwarder_counts_request_not_failure env c r err :
  dispatch env r = ToProxy \/ dispatch env r = ToWebSocketProxy ->
  transport_RoundTrip env (Director env r) = Err err ->
  ServeHTTP env c r
  = Done (incRequestCount c) {| StatusCode := 502; RespHeader := []; Body := Raw "" |}
  /\ requestCount (client_of (ServeHTTP env c r)) = int64_incr (requestCount c)
  /\ errorCount (client_of (ServeHTTP env c r)) = errorCount c.
Proof.
  intros Hroute Hfail.
  assert (ServeHTTP env c r
          = Done (incRequestCount c) {| StatusCode := 502; RespHeader := []; Body := Raw "" |})
    as ->.
  { unfold ServeHTTP, proxy_ServeHTTP. destruct Hroute as [-> | ->]; by rewrite Hfail. }
  done.
Qed.

Lemma forwarder_counts_request_not_failure_witness :
  ServeHTTP Sample.down Sample.client (Sample.get "/devtools/page/XYZ")
  = Done (incRequestCount Sample.client)
         {| StatusCode := 502; RespHeader := []; Body := Raw "" |}
  /\ requestCount (client_of (ServeHTTP Sample.down Sample.client
                                (Sample.get "/devtools/page/XYZ")))
     = int64_incr (requestCount Sample.client)
  /\ errorCount (client_of (ServeHTTP Sample.down Sample.client
                              (Sample.get "/devtools/page/XYZ")))
     = errorCount Sample.client.
Proof.
  apply (forwarder_counts_request_not_failure Sample.down Sample.client
           (Sample.get "/devtools/page/XYZ") "connection refused").
  - left. reflexivity.
  - reflexivity.
Defined.

Section AddressFacts.
Import GoStrconv.
Implicit Types s t p suffix : string.

Lemma digit_not_w d : (0 <= d < 10)%Z -> Ascii.eqb "w" (digit d) = false.
Proof.
  intros Hd.
  assert (d = 0 \/ d = 1 \/ d = 2 \/ d = 3 \/ d = 4 \/ d = 5 \/ d = 6 \/ d = 7
          \/ d = 8 \/ d = 9)%Z as Hcases by lia.
  repeat (destruct Hcases as [-> | Hcases]; [reflexivity |]). by subst.
Qed.

Lemma Contains_w_cons a s : Contains (String a s) "w" = Ascii.eqb "w" a || Contains s "w".
Proof. rewrite Contains_cons. simpl. by rewrite andb_true_r. Qed.

Lemma formatBits_w_free fuel u acc :
  Contains acc "w" = false -> Contains (formatBits fuel u acc) "w" = false.
Proof.
  revert u acc. induction fuel as [|fuel IH]; intros u acc Hacc; simpl; [done |].
  assert (Contains (String (digit (u mod 10)) acc) "w" = false) as Hacc'.
  { rewrite Contains_w_cons, Hacc, digit_not_w; [done |].
    apply Z.mod_pos_bound. lia. }
  destruct (u <? 10)%Z; [done | by apply IH].
Qed.

Lemma Itoa_w_free i : Contains (Itoa i) "w" = false.
Proof.
  unfold Itoa. destruct (i <? 0)%Z.
  - rewrite Contains_w_cons. change (Ascii.eqb "w" "-") with false.
    by apply formatBits_w_free.
  - by apply formatBits_w_free.
Qed.

(** No instance of a string that begins with [w] begins in a string without
    a [w]. *)
Lemma Contains_skip_w s t p :
  Contains s "w" = false -> Contains (s +:+ t) (String "w" p) = Contains t (String "w" p).
Proof.
  induction s as [|a s IH]; [done |].
  rewrite Contains_w_cons. intros [Ha Hs]%orb_false_iff.
  change (String a s +:+ t) with (String a (s +:+ t)).
  rewrite Contains_cons, (IH Hs).
  change (HasPrefix (String a (s +:+ t)) (String "w" p))
    with (Ascii.eqb "w" a && HasPrefix (s +:+ t) p).
  by rewrite Ha.
Qed.

Lemma Contains_append_r s t p : Contains t p = true -> Contains (s +:+ t) p = true.
Proof.
  intros (before & after & -> & _)%Contains_true_inv.
  rewrite <-append_assoc. apply Contains_instance.
Qed.

Lemma Contains_append_r_false s t p : Contains (s +:+ t) p = false -> Contains t p = false.
Proof.
  intros H. destruct (Contains t p) eqn:Ht; [| done].
  by rewrite (Contains_append_r s t p Ht) in H.
Qed.

(** Where a string occurs, so does each of its suffixes. *)
Lemma Contains_suffix s q p : Contains s (q +:+ p) = true -> Contains s p = true.
Proof.
  intros (before & after & -> & _)%Contains_true_inv.
  rewrite append_assoc, <-(append_assoc before q). apply Contains_instance.
Qed.

(** A debugger URL that begins with the loopback spelling holds the
    [localhost] spelling only where what follows the prefix does. *)
Lemma loopback_prefix_hides_no_localhost port suffix :
  Contains suffix ("localhost:" +:+ Itoa port) = false ->
  Contains (("ws://127.0.0.1:" +:+ Itoa port) +:+ suffix) ("ws://localhost:" +:+ Itoa port)
  = false.
Proof.
  intros Hsuffix. simpl. rewrite !Contains_cons. simpl.
  change ("ws://localhost:" +:+ Itoa port) with (String "w" ("s://localhost:" +:+ Itoa port)).
  rewrite (Contains_skip_w _ _ _ (Itoa_w_free port)).
  destruct (Contains suffix (String "w" ("s://localhost:" +:+ Itoa port))) eqn:H; [| done].
  apply (Contains_suffix suffix "ws://" ("localhost:" +:+ Itoa port)) in H. congruence.
Qed.

(** The secure scheme in front hides no address. *)
Lemma Contains_wss_localhost t p :
  Contains ("wss://" +:+ t) ("localhost:" +:+ p) = Contains t ("localhost:" +:+ p).
Proof. simpl. by rewrite !Contains_cons. Qed.

Lemma Contains_wss_loopback t p :
  Contains ("wss://" +:+ t) ("127.0.0.1:" +:+ p) = Contains t ("127.0.0.1:" +:+ p).
Proof. simpl. by rewrite !Contains_cons. Qed.

End AddressFacts.

Section ExposureFacts.
Implicit Types target pub url : string.
Implicit Types m : gmap string value.

Lemma rewriteDevURL_ws target pub m : rewriteDevURL target pub m !! wsKey = m !! wsKey.
Proof.
  unfold rewriteDevURL.
  string_field (m !! "devtoolsFrontendUrl") dev Hdev; try done.
  by apply lookup_insert_ne.
Qed.

Lemma rewriteDevURL_other target pub m k :
  k <> devKey -> rewriteDevURL target pub m !! k = m !! k.
Proof.
  intros Hk. unfold rewriteDevURL.
  string_field (m !! "devtoolsFrontendUrl") dev Hdev; try done.
  by apply lookup_insert_ne.
Qed.

(** The rewriter computes what [ws_rewritten] describes. *)
Lemma ws_rewritten_sound port c pub url new :
  serving port c ->
  ws_rewritten port pub url new ->
  rewriteWebSocketURL url (targetHostPort c) pub = Some new.
Proof.
  unfold serving. intros -> Hrw. pose proof (patterns_client port) as Hpats.
  destruct Hrw as [before after Hfirst | before after Habsent Hfirst | Hlocal Hloop].
  - apply (rewriteWebSocketURL_first _ _ _ [] _ _ _ before after Hpats eq_refl); [| done].
    intros q Hq. by apply elem_of_nil in Hq.
  - apply (rewriteWebSocketURL_first _ _ _ [_] _ _ _ before after Hpats eq_refl); [| done].
    intros q Hq. by apply list_elem_of_singleton in Hq as ->.
  - apply (rewriteWebSocketURL_absent _ _ _ _ Hpats).
    intros q Hq. repeat (apply elem_of_cons in Hq as [-> | Hq]; [done |]).
    by apply elem_of_nil in Hq.
Qed.

Lemma ws_rewritten_total port pub url : exists new, ws_rewritten port pub url new.
Proof.
  destruct (Contains url ("ws://localhost:" +:+ GoStrconv.Itoa port)) eqn:Hlocal.
  { destruct (Contains_true_inv _ _ Hlocal) as (before & after & Hfirst).
    eexists. by eapply ws_rewritten_localhost. }
  destruct (Contains url ("ws://127.0.0.1:" +:+ GoStrconv.Itoa port)) eqn:Hloop.
  { destruct (Contains_true_inv _ _ Hloop) as (before & after & Hfirst).
    eexists. by eapply ws_rewritten_loopback. }
  eexists. by apply ws_rewritten_neither.
Qed.

Lemma dev_rewritten_sound port c pub url new :
  serving port c ->
  dev_rewritten port pub url new ->
  Replace url ("ws=" +:+ targetHostPort c) ("ws=" +:+ pub) 1 = new.
Proof.
  unfold serving. intros -> Hrw.
  change ("ws=" +:+ GoNet.JoinHostPort "localhost" (GoStrconv.Itoa port))
    with ("ws=localhost:" +:+ GoStrconv.Itoa port).
  destruct Hrw as [before after Hfirst | Habsent].
  - rewrite (Replace_first_instance _ _ _ before after Hfirst). by rewrite append_assoc.
  - by apply Replace_absent.
Qed.

Lemma dev_rewritten_total port pub url : exists new, dev_rewritten port pub url new.
Proof.
  destruct (Contains url ("ws=localhost:" +:+ GoStrconv.Itoa port)) eqn:Hdev.
  - destruct (Contains_true_inv _ _ Hdev) as (before & after & Hfirst).
    eexists. by eapply dev_rewritten_first.
  - eexists. by apply dev_rewritten_none.
Qed.

Lemma field_rewritten_string (R : string -> string -> Prop) f f' s s' :
  f = Some (VString s) -> f' = Some (VString s') -> R s s' -> field_rewritten R f f'.
Proof. intros -> -> HR. simpl. eauto. Qed.

Lemma field_rewritten_total (R : string -> string -> Prop) f :
  (forall s, exists s', R s s') -> exists f', field_rewritten R f f'.
Proof.
  intros HR. destruct f as [[| | | |s| |]|]; try (by eexists).
  destruct (HR s) as [s' Hs']. exists (Some (VString s')). simpl. eauto.
Qed.

Lemma rewriteDevURL_rewritten port c pub m f' :
  serving port c ->
  field_rewritten (dev_rewritten port pub) (m !! devKey) f' ->
  rewriteDevURL (targetHostPort c) pub m !! devKey = f'.
Proof.
  intros Hc. unfold rewriteDevURL, field_rewritten, devKey.
  string_field (m !! "devtoolsFrontendUrl") dev Hdev; try (by intros ->).
  intros (s' & -> & Hs'). rewrite lookup_insert_eq.
  by rewrite (dev_rewritten_sound port c pub dev s' Hc Hs').
Qed.

Lemma version_rewritten_sound port c pub d d' :
  serving port c ->
  version_rewritten port pub d d' ->
  rewriteVersionData (targetHostPort c) pub d = Some d'.
Proof.
  intros Hc. destruct d as [|m], d' as [|m']; try done. intros [Hframe Hws].
  unfold rewriteVersionData, field_rewritten, wsKey in *.
  string_field (m !! "webSocketDebuggerUrl") url Hm;
    try (f_equal; f_equal; apply map_eq; intros k;
         destruct (decide (k = "webSocketDebuggerUrl")) as [-> | Hk];
         [by rewrite Hws, Hm | by rewrite Hframe]).
  destruct Hws as (new & Hnew & Hrw).
  rewrite (ws_rewritten_sound port c pub url new Hc Hrw). simpl.
  f_equal; f_equal; apply map_eq; intros k.
  destruct (decide (k = "webSocketDebuggerUrl")) as [-> | Hk].
  - by rewrite lookup_insert_eq, Hnew.
  - by rewrite lookup_insert_ne, Hframe.
Qed.

Lemma version_rewritten_total port pub d : exists d', version_rewritten port pub d d'.
Proof.
  destruct d as [|m]; [by exists NilMap |].
  destruct (field_rewritten_total (ws_rewritten port pub) (m !! wsKey)
              (ws_rewritten_total port pub)) as [f' Hf'].
  unfold field_rewritten in Hf'.
  string_field (m !! wsKey) url Hm;
    try (exists (Map m); split; [done |]; unfold field_rewritten; by rewrite Hm).
  destruct Hf' as (new & -> & Hrw).
  exists (Map (<[wsKey := VString new]> m)). split.
  - intros k Hk. by apply lookup_insert_ne.
  - unfold field_rewritten. rewrite Hm. exists new. by rewrite lookup_insert_eq.
Qed.

Lemma target_rewritten_sound port c pub e e' :
  serving port c ->
  target_rewritten port pub e e' ->
  rewriteTarget (targetHostPort c) pub e = Some e'.
Proof.
  intros Hc. destruct e as [|m], e' as [|m']; try done. intros (Hframe & Hws & Hdev).
  apply (rewriteDevURL_rewritten port c pub m _ Hc) in Hdev.
  pose proof (rewriteDevURL_ws (targetHostPort c) pub m) as Hws1.
  pose proof (rewriteDevURL_other (targetHostPort c) pub m) as Hother.
  unfold rewriteTarget, field_rewritten, wsKey, devKey in *.
  set (m1 := rewriteDevURL (targetHostPort c) pub m) in *.
  rewrite Hws1.
  string_field (m !! "webSocketDebuggerUrl") url Hm;
    try (f_equal; f_equal; apply map_eq; intros k;
         destruct (decide (k = "webSocketDebuggerUrl")) as [-> | Hk];
         [by rewrite Hws1, Hws
         | destruct (decide (k = "devtoolsFrontendUrl")) as [-> | Hk'];
           [done | by rewrite Hother, Hframe]]).
  destruct Hws as (new & Hnew & Hrw).
  rewrite (ws_rewritten_sound port c pub url new Hc Hrw). simpl.
  f_equal; f_equal; apply map_eq; intros k.
  destruct (decide (k = "webSocketDebuggerUrl")) as [-> | Hk].
  - by rewrite lookup_insert_eq, Hnew.
  - rewrite lookup_insert_ne by done.
    destruct (decide (k = "devtoolsFrontendUrl")) as [-> | Hk']; [done |].
    by rewrite Hother, Hframe.
Qed.

Lemma target_rewritten_total port pub e : exists e', target_rewritten port pub e e'.
Proof.
  destruct e as [|m]; [by exists NilMap |].
  destruct (field_rewritten_total (ws_rewritten port pub) (m !! wsKey)
              (ws_rewritten_total port pub)) as [fw Hfw].
  destruct (field_rewritten_total (dev_rewritten port pub) (m !! devKey)
              (dev_rewritten_total port pub)) as [fd Hfd].
  exists (Map (partial_alter (fun _ => fw) wsKey (partial_alter (fun _ => fd) devKey m))).
  split; [| split].
  - intros k Hw Hd. by rewrite !lookup_partial_alter_ne.
  - by rewrite lookup_partial_alter_eq.
  - rewrite lookup_partial_alter_ne by done. by rewrite lookup_partial_alter_eq.
Qed.

Lemma targets_rewritten_sound port c pub d d' :
  serving port c ->
  targets_rewritten port pub d d' ->
  rewriteTargets (targetHostPort c) pub d = Some d'.
Proof.
  intros Hc. destruct d as [|l], d' as [|l']; try done. intros Hl.
  unfold rewriteTargets. rewrite (mapM_Some_2 _ l l'); [done |].
  eapply Forall2_impl; [exact Hl |]. intros e e'. by apply target_rewritten_sound.
Qed.

Lemma targets_rewritten_total port pub d : exists d', targets_rewritten port pub d d'.
Proof.
  destruct d as [|l]; [by exists NilSlice |].
  assert (exists l', Forall2 (target_rewritten port pub) l l') as [l' Hl'].
  { induction l as [|e l [l' IH]]; [by exists [] |].
    destruct (target_rewritten_total port pub e) as [e' He'].
    exists (e' :: l'). by constructor. }
  by exists (Slice l').
Qed.

End ExposureFacts.

(** C1 (as amended).  For a proxy in front of [localhost:<port>], the
    documents the two discovery handlers deliver are the decoded ones with
    the URL fields rewritten: in a string [webSocketDebuggerUrl] the leftmost
    instance of [ws://localhost:<port>] is replaced by [wss://<external
    host>] or, when that spelling does not occur in it, the leftmost
    instance of [ws://127.0.0.1:<port>]; in the list, the leftmost instance
    of [ws=localhost:<port>] in a string [devtoolsFrontendUrl] is replaced by
    [ws=<external host>].  Every other key of the documents is delivered
    with the value it had, and so is what follows the replaced instance.
    [/metrics] and a healthy [/health] report the target address under
    [target_host] and [target], and a response the reverse proxy relays is
    the target's response. *)
Theorem discovery_rewrites_urls_at_own_target env c r port :
  serving port c ->
  (forall body d d' len,
      client_Get env (versionURL c) = FetchedBody body ->
      json_Unmarshal_map env body = Ok d ->
      version_rewritten port (Host r) d d' ->
      json_Marshal env (value_of_map d') = Ok len ->
      handleJsonVersion env c r
      = Done c {| StatusCode := 200;
                  RespHeader := [("Content-Type", "application/json");
                                 ("Content-Length", GoStrconv.Itoa (Z.of_nat len))];
                  Body := JSON (value_of_map d') |})
  /\ (forall body d d' len,
      client_Get env (listURL c r) = FetchedBody body ->
      json_Unmarshal_slice env body = Ok d ->
      targets_rewritten port (Host r) d d' ->
      json_Marshal env (value_of_slice d') = Ok len ->
      handleJsonList env c r
      = Done c {| StatusCode := 200;
                  RespHeader := [("Content-Type", "application/json");
                                 ("Content-Length", GoStrconv.Itoa (Z.of_nat len))];
                  Body := JSON (value_of_slice d') |})
  /\ (forall d, exists d', version_rewritten port (Host r) d d')
  /\ (forall d, exists d', targets_rewritten port (Host r) d d')
  /\ (forall suffix,
      Contains (Host r +:+ suffix) ("localhost:" +:+ GoStrconv.Itoa port) = false ->
      Contains (Host r +:+ suffix) ("127.0.0.1:" +:+ GoStrconv.Itoa port) = false ->
      ws_rewritten port (Host r) (("ws://localhost:" +:+ GoStrconv.Itoa port) +:+ suffix)
        ("wss://" +:+ Host r +:+ suffix)
      /\ ws_rewritten port (Host r) (("ws://127.0.0.1:" +:+ GoStrconv.Itoa port) +:+ suffix)
           ("wss://" +:+ Host r +:+ suffix)
      /\ Contains ("wss://" +:+ Host r +:+ suffix) ("localhost:" +:+ GoStrconv.Itoa port)
         = false
      /\ Contains ("wss://" +:+ Host r +:+ suffix) ("127.0.0.1:" +:+ GoStrconv.Itoa port)
         = false)
  /\ (exists m : gmap string value,
      handleMetrics env c r
      = Done c {| StatusCode := 200;
                  RespHeader := [("Content-Type", "application/json")];
                  Body := JSONLine (VMap m) |}
      /\ m !! "target_host" = Some (VString ("localhost:" +:+ GoStrconv.Itoa port)))
  /\ ((forall err, client_Get env (versionURL c) <> GetError err) ->
      exists m : gmap string value,
        handleHealth env c r
        = Done c {| StatusCode := 200;
                    RespHeader := [("Content-Type", "application/json")];
                    Body := JSONLine (VMap m) |}
        /\ m !! "target" = Some (VString ("localhost:" +:+ GoStrconv.Itoa port)))
  /\ (forall resp,
      transport_RoundTrip env (Director env r) = Ok (Relayed resp) ->
      proxy_ServeHTTP env c r = Done c resp).
Proof.
  intros Hc.
  refine (conj _ (conj _ (conj _ (conj _ (conj _ (conj _ (conj _ _))))))).
  - intros body d d' len Hget Hdec Hrw Henc.
    unfold handleJsonVersion. fold (versionURL c).
    by rewrite Hget, Hdec, (version_rewritten_sound port c _ d d' Hc Hrw), Henc.
  - intros body d d' len Hget Hdec Hrw Henc.
    unfold handleJsonList. fold (listURL c r).
    by rewrite Hget, Hdec, (targets_rewritten_sound port c _ d d' Hc Hrw), Henc.
  - apply version_rewritten_total.
  - apply targets_rewritten_total.
  - intros suffix Hlocal Hloop.
    refine (conj _ (conj _ (conj _ _))).
    + apply (ws_rewritten_localhost port (Host r) _ "" suffix), first_instance_prefix.
    + apply (ws_rewritten_loopback port (Host r) _ "" suffix);
        [| apply first_instance_prefix].
      apply loopback_prefix_hides_no_localhost.
      by apply (Contains_append_r_false (Host r)).
    + by rewrite Contains_wss_localhost.
    + by rewrite Contains_wss_loopback.
  - eexists. split; [reflexivity |].
    rewrite !lookup_insert_ne by done. rewrite lookup_insert_eq. by rewrite Hc.
  - intros Hup. unfold handleHealth. fold (versionURL c).
    destruct (client_Get env (versionURL c)) as [err| |] eqn:Hget;
      [by destruct (Hup err) | |];
      (eexists; split; [reflexivity |];
       rewrite !lookup_insert_ne by done; rewrite lookup_insert_eq; by rewrite Hc).
  - intros resp Hresp. unfold proxy_ServeHTTP. by rewrite Hresp.
Qed.

Lemma discovery_rewrites_urls_at_own_target_witness :
  handleJsonVersion Sample.up Sample.client (Sample.get "/json/version")
  = Done Sample.client
      {| StatusCode := 200;
         RespHeader := [("Content-Type", "application/json"); ("Content-Length", "128")];
         Body := JSON (VMap (<[wsKey := VString "wss://9223-host.example/devtools/browser/abc123"]>
                             Sample.versionDoc)) |}
  /\ handleJsonList Sample.up Sample.client (Sample.get "/json")
     = Done Sample.client
         {| StatusCode := 200;
            RespHeader := [("Content-Type", "application/json"); ("Content-Length", "128")];
            Body := JSON (VSlice [VMap
              (<[wsKey := VString "wss://9223-host.example/devtools/page/27E1"]>
               (<[devKey := VString "/devtools/inspector.html?ws=9223-host.example/devtools/page/27E1"]>
                Sample.pageDoc))]) |}
  /\ exists m : gmap string value,
      handleHealth Sample.up Sample.client (Sample.get "/health")
      = Done Sample.client {| StatusCode := 200;
                              RespHeader := [("Content-Type", "application/json")];
                              Body := JSONLine (VMap m) |}
      /\ m !! "target" = Some (VString "localhost:9222").
Proof.
  destruct (discovery_rewrites_urls_at_own_target Sample.up Sample.client
              (Sample.get "/json/version") 9222 eq_refl)
    as (Hversion & _).
  destruct (discovery_rewrites_urls_at_own_target Sample.up Sample.client
              (Sample.get "/json") 9222 eq_refl)
    as (_ & Hlist & _).
  destruct (discovery_rewrites_urls_at_own_target Sample.up Sample.client
              (Sample.get "/health") 9222 eq_refl)
    as (_ & _ & _ & _ & _ & _ & Hhealth & _).
  split; [| split].
  - apply (Hversion Sample.versionBody (Map Sample.versionDoc)
             (Map (<[wsKey := VString "wss://9223-host.example/devtools/browser/abc123"]>
                   Sample.versionDoc)) 128%nat eq_refl eq_refl); [| reflexivity].
    split.
    + intros k Hk. by apply lookup_insert_ne.
    + eapply field_rewritten_string; [reflexivity | reflexivity |].
      apply (ws_rewritten_loopback 9222 "9223-host.example" _ "" "/devtools/browser/abc123").
      * reflexivity.
      * apply first_instance_of_Index; reflexivity.
  - apply (Hlist Sample.listBody (Slice [Map Sample.pageDoc])
             (Slice [Map (<[wsKey := VString "wss://9223-host.example/devtools/page/27E1"]>
                          (<[devKey := VString "/devtools/inspector.html?ws=9223-host.example/devtools/page/27E1"]>
                           Sample.pageDoc))]) 128%nat eq_refl eq_refl); [| reflexivity].
    constructor; [| constructor]. split; [| split].
    + intros k Hw Hd. by rewrite !lookup_insert_ne.
    + eapply field_rewritten_string; [reflexivity | reflexivity |].
      apply (ws_rewritten_localhost 9222 "9223-host.example" _ "" "/devtools/page/27E1").
      apply first_instance_of_Index; reflexivity.
    + eapply field_rewritten_string; [reflexivity | reflexivity |].
      apply (dev_rewritten_first 9222 "9223-host.example" _
               "/devtools/inspector.html?" "/devtools/page/27E1").
      apply first_instance_of_Index; reflexivity.
  - apply Hhealth. intros err. discriminate.
Defined.

(** What the rewrites leave in a delivered document: a second instance of
    the address in the debugger URL, and the address in any other field.
    This target lists a page whose [url] is the target's own [/json/list]. *)
Example delivered_list_names_target :
  let page := <["url" := VString "http://localhost:9222/json/list"]>
              (<[wsKey := VString "ws://localhost:9222/devtools/page/A?peer=ws://localhost:9222"]> ∅) in
  let env := {| client_Get := fun _ => FetchedBody "list";
                json_Unmarshal_map := fun _ => Err "invalid character";
                json_Unmarshal_slice := fun _ => Ok (Slice [Map page]);
                json_Marshal := fun _ => Ok 128%nat;
                transport_RoundTrip := fun _ => Err "connection refused";
                time_Now := 1754000000000000000;
                Duration_String := fun _ => "1s";
                Duration_Seconds := fun _ => PrimFloat.one;
                unicode_ToLower := Sample.lowerRunes 0 |} in
  handleJsonList env Sample.client (Sample.get "/json")
  = Done Sample.client
      {| StatusCode := 200;
         RespHeader := [("Content-Type", "application/json"); ("Content-Length", "128")];
         Body := JSON (VSlice [VMap
           (<["url" := VString "http://localhost:9222/json/list"]>
            (<[wsKey := VString "wss://9223-host.example/devtools/page/A?peer=ws://localhost:9222"]> ∅))]) |}.
Proof. vm_compute. reflexivity. Qed.

(** C1, as stated, fails: the answer to [GET /metrics] names the target
    address. *)
Lemma metrics_response_names_target :
  exists c' w,
    ServeHTTP Sample.up Sample.client (Sample.get "/metrics") = Done c' w
    /\ StatusCode w = 200%Z
    /\ body_mentions "localhost:9222" (Body w).
Proof.
  eexists _, _. split; [reflexivity |]. split; [reflexivity |].
  simpl. eapply (mentions_field _ _ "target_host").
  - reflexivity.
  - apply mentions_string. reflexivity.
Qed.

Local Open Scope list_scope.

Section RaceFacts.
Import Race.
Implicit Types pre rest : list goroutine.

Lemma step_AtLoad n pre rest :
  step (n, pre ++ AtLoad :: rest) (length pre) = (n, pre ++ AtStore n :: rest).
Proof.
  unfold step. simpl. rewrite list_lookup_middle by done.
  by rewrite insert_app_r_alt, Nat.sub_diag by lia.
Qed.

Lemma step_AtStore v n pre rest :
  step (v, pre ++ AtStore n :: rest) (length pre) = (int64_incr n, pre ++ Counted :: rest).
Proof.
  unfold step. simpl. rewrite list_lookup_middle by done.
  by rewrite insert_app_r_alt, Nat.sub_diag by lia.
Qed.

Lemma run_app l1 l2 st : run (l1 ++ l2) st = run l2 (run l1 st).
Proof. apply foldl_app. Qed.

(** Every goroutine reads the field before any of them writes it back. *)
Lemma run_loads n k pre :
  run (seq (length pre) k) (n, pre ++ replicate k AtLoad)
  = (n, pre ++ replicate k (AtStore n)).
Proof.
  revert pre. induction k as [|k IH]; intros pre; [done |].
  simpl. unfold run in *. simpl. rewrite step_AtLoad.
  specialize (IH (pre ++ [AtStore n])).
  rewrite length_app, <-!(assoc_L (++)) in IH. simpl in IH.
  by rewrite Nat.add_1_r in IH.
Qed.

Lemma run_stores v n k pre :
  run (seq (length pre) k) (v, pre ++ replicate k (AtStore n))
  = (match k with O => v | S _ => int64_incr n end, pre ++ replicate k Counted).
Proof.
  revert v pre. induction k as [|k IH]; intros v pre; [done |].
  simpl. unfold run in *. simpl. rewrite step_AtStore.
  specialize (IH (int64_incr n) (pre ++ [Counted])).
  rewrite length_app, <-!(assoc_L (++)) in IH. simpl in IH.
  rewrite Nat.add_1_r in IH. rewrite IH. by destruct k.
Qed.

(** One goroutine after the other: nothing is lost. *)
Lemma run_in_turn n k pre :
  run (concat ((fun i => [i; i]) <$> seq (length pre) k)) (n, pre ++ replicate k AtLoad)
  = (Nat.iter k int64_incr n, pre ++ replicate k Counted).
Proof.
  revert n pre. induction k as [|k IH]; intros n pre; [done |].
  simpl. unfold run in *. simpl. rewrite step_AtLoad, step_AtStore.
  specialize (IH (int64_incr n) (pre ++ [Counted])).
  rewrite length_app, <-!(assoc_L (++)) in IH. simpl in IH.
  rewrite Nat.add_1_r in IH. etrans; [exact IH |]. f_equal.
  clear. induction k as [|k IH]; [done |]. simpl. by rewrite IH.
Qed.

End RaceFacts.

(** C8.  With [k + 1] requests in flight there is a schedule, every read of
    [c.requestCount] before the first write, after which the counter has
    gone up by one only; served in turn, the same requests count [k + 1]
    times. *)
Theorem concurrent_increments_lose_updates n k :
  Race.run (seq 0 (S k) ++ seq 0 (S k)) (n, Race.arrivals (S k))
  = (int64_incr n, replicate (S k) Race.Counted)
  /\ Race.run (concat ((fun i => [i; i]) <$> seq 0 (S k))) (n, Race.arrivals (S k))
     = (Nat.iter (S k) int64_incr n, replicate (S k) Race.Counted).
Proof.
  split.
  - assert (Race.run (seq 0 (S k)) (n, Race.arrivals (S k))
            = (n, replicate (S k) (Race.AtStore n))) as Hloads
      by apply (run_loads n (S k) []).
    assert (Race.run (seq 0 (S k)) (n, replicate (S k) (Race.AtStore n))
            = (int64_incr n, replicate (S k) Race.Counted)) as Hstores
      by apply (run_stores n n (S k) []).
    by rewrite run_app, Hloads, Hstores.
  - apply (run_in_turn n (S k) []).
Qed.

Example two_requests_one_count :
  Race.run [0; 1; 0; 1]%nat (0%Z, Race.arrivals 2) = (1%Z, [Race.Counted; Race.Counted])
  /\ Race.run [0; 0; 1; 1]%nat (0%Z, Race.arrivals 2) = (2%Z, [Race.Counted; Race.Counted]).
Proof. split; reflexivity. Qed.

(** * Further properties of the proxy *)

Section LifetimeFacts.

Lemma handleJsonVersion_frame env c r :
  let c' := client_of (handleJsonVersion env c r) in
  targetHostPort c' = targetHostPort c /\ clientTimeout c' = clientTimeout c
  /\ startTime c' = startTime c.
Proof.
  unfold handleJsonVersion.
  destruct (client_Get env _); [done | done |].
  destruct (json_Unmarshal_map env _); [| done].
  destruct (rewriteVersionData _ _ _); [| done].
  by destruct (json_Marshal env _).
Qed.

Lemma handleJsonList_frame env c r :
  let c' := client_of (handleJsonList env c r) in
  targetHostPort c' = targetHostPort c /\ clientTimeout c' = clientTimeout c
  /\ startTime c' = startTime c.
Proof.
  unfold handleJsonList.
  destruct (client_Get env _); [done | done |].
  destruct (json_Unmarshal_slice env _); [| done].
  destruct (rewriteTargets _ _ _); [| done].
  by destruct (json_Marshal env _).
Qed.

Lemma ServeHTTP_frame env c r :
  let c' := client_of (ServeHTTP env c r) in
  targetHostPort c' = targetHostPort c /\ clientTimeout c' = clientTimeout c
  /\ startTime c' = startTime c.
Proof.
  unfold ServeHTTP. destruct (dispatch env r).
  - by rewrite handleHealth_client.
  - done.
  - apply (handleJsonVersion_frame env (incRequestCount c) r).
  - apply (handleJsonList_frame env (incRequestCount c) r).
  - by rewrite proxy_ServeHTTP_client.
  - by rewrite proxy_ServeHTTP_client.
Qed.

Lemma ServeHTTP_serving env c r port :
  serving port c -> serving port (client_of (ServeHTTP env c r)).
Proof.
  unfold serving. destruct (ServeHTTP_frame env c r) as (-> & _). done.
Qed.

Lemma serveAll_serving reqs c port : serving port c -> serving port (serveAll reqs c).
Proof.
  revert c. induction reqs as [|[env r] reqs IH]; intros c Hc; [done |].
  apply IH. by apply ServeHTTP_serving.
Qed.

Lemma handleJsonVersion_cases env c r port :
  serving port c ->
  (exists msg code,
      handleJsonVersion env c r = Done (incErrorCount c) (http_Error msg code)
      /\ (code = 500 \/ code = 502)%Z)
  \/ exists len v, handleJsonVersion env c r = Done c (writeJSON len v).
Proof.
  intros Hpats%serving_patterns. unfold handleJsonVersion.
  destruct (client_Get env _); [left; by eauto | left; by eauto |].
  destruct (json_Unmarshal_map env _) as [d|]; [| left; by eauto].
  destruct (rewriteVersionData_agree (targetHostPort c) (Host r) _ d Hpats) as (d' & -> & _).
  destruct (json_Marshal env _); [right | left]; by eauto.
Qed.

Lemma handleJsonList_cases env c r port :
  serving port c ->
  (exists msg code,
      handleJsonList env c r = Done (incErrorCount c) (http_Error msg code)
      /\ (code = 500 \/ code = 502)%Z)
  \/ exists len v, handleJsonList env c r = Done c (writeJSON len v).
Proof.
  intros Hpats%serving_patterns. unfold handleJsonList.
  destruct (client_Get env _); [left; by eauto | left; by eauto |].
  destruct (json_Unmarshal_slice env _) as [d|]; [| left; by eauto].
  destruct (rewriteTargets_agree (targetHostPort c) (Host r) _ d Hpats) as (d' & -> & _).
  destruct (json_Marshal env _); [right | left]; by eauto.
Qed.

(** The handlers of the proxy itself answer. *)
Lemma ServeHTTP_own_route env c r port :
  serving port c ->
  dispatch env r ∈ [ToHealth; ToMetrics; ToJsonVersion; ToJsonList] ->
  exists c' w, ServeHTTP env c r = Done c' w.
Proof.
  intros Hc Hroute. unfold ServeHTTP.
  assert (serving port (incRequestCount c)) as Hc' by done.
  destruct (dispatch env r).
  - unfold handleHealth. destruct (client_Get env _); eauto.
  - unfold handleMetrics. eauto.
  - destruct (handleJsonVersion_cases env _ r port Hc') as [(? & ? & -> & _) | (? & ? & ->)];
      eauto.
  - destruct (handleJsonList_cases env _ r port Hc') as [(? & ? & -> & _) | (? & ? & ->)];
      eauto.
  - exfalso. repeat (apply elem_of_cons in Hroute as [? | Hroute]; [done |]).
    by apply elem_of_nil in Hroute.
  - exfalso. repeat (apply elem_of_cons in Hroute as [? | Hroute]; [done |]).
    by apply elem_of_nil in Hroute.
Qed.

(** [ServeHTTP] panics when, and only when, the reverse proxy does. *)
Lemma ServeHTTP_Panic env c r port c' :
  serving port c ->
  ServeHTTP env c r = Panic c'
  <-> c' = incRequestCount c
      /\ (dispatch env r = ToWebSocketProxy \/ dispatch env r = ToProxy)
      /\ transport_RoundTrip env (Director env r) = Ok Aborted.
Proof.
  intros Hc. assert (serving port (incRequestCount c)) as Hc' by done.
  unfold ServeHTTP.
  destruct (dispatch env r) eqn:Hroute.
  - unfold handleHealth. destruct (client_Get env _); split; try done; by intros (_ & [?|?] & _).
  - unfold handleMetrics. split; try done; by intros (_ & [?|?] & _).
  - destruct (handleJsonVersion_cases env _ r port Hc') as [(? & ? & -> & _) | (? & ? & ->)];
      split; try done; by intros (_ & [?|?] & _).
  - destruct (handleJsonList_cases env _ r port Hc') as [(? & ? & -> & _) | (? & ? & ->)];
      split; try done; by intros (_ & [?|?] & _).
  - unfold proxy_ServeHTTP.
    destruct (transport_RoundTrip env (Director env r)) as [[resp|]|err]; split;
      try done; try (by intros (_ & _ & ?)).
    + intros [= <-]. auto.
    + by intros (-> & _).
  - unfold proxy_ServeHTTP.
    destruct (transport_RoundTrip env (Director env r)) as [[resp|]|err]; split;
      try done; try (by intros (_ & _ & ?)).
    + intros [= <-]. auto.
    + by intros (-> & _).
Qed.

Lemma serveAll_frame reqs c :
  targetHostPort (serveAll reqs c) = targetHostPort c
  /\ clientTimeout (serveAll reqs c) = clientTimeout c
  /\ startTime (serveAll reqs c) = startTime c.
Proof.
  revert c. induction reqs as [|[env r] reqs IH]; intros c; [done |].
  destruct (ServeHTTP_frame env c r) as (H1 & H2 & H3).
  destruct (IH (client_of (ServeHTTP env c r))) as (H1' & H2' & H3').
  simpl in *. unfold serveAll in *. simpl. repeat split; congruence.
Qed.

End LifetimeFacts.

(** X6.  Whatever requests a client made by [NewChromeDevToolsClient] has
    served, its target address, timeout and start time are the ones it was
    made with.  The next request is answered by the proxy's own handlers
    whenever it is routed to one of them; [ServeHTTP] panics exactly when the
    request is forwarded and the reverse proxy breaks off while relaying the
    target's response, and the request has been counted by then. *)
Theorem panics_only_while_relaying port timeoutSec now reqs env r :
  let c := serveAll reqs (NewChromeDevToolsClient port timeoutSec now) in
  targetHostPort c = GoNet.JoinHostPort "localhost" (GoStrconv.Itoa port)
  /\ clientTimeout c = int64_wrap (timeoutSec * 1000000000)
  /\ startTime c = now
  /\ (dispatch env r ∈ [ToHealth; ToMetrics; ToJsonVersion; ToJsonList] ->
      exists c' w, ServeHTTP env c r = Done c' w)
  /\ (forall c',
      ServeHTTP env c r = Panic c'
      <-> c' = incRequestCount c
          /\ (dispatch env r = ToWebSocketProxy \/ dispatch env r = ToProxy)
          /\ transport_RoundTrip env (Director env r) = Ok Aborted).
Proof.
  intros c. destruct (serveAll_frame reqs (NewChromeDevToolsClient port timeoutSec now))
    as (Htarget & Htimeout & Hstart).
  split; [exact Htarget |]. split; [exact Htimeout |]. split; [exact Hstart |].
  split.
  - by apply (ServeHTTP_own_route env c r port).
  - intros c'. by apply (ServeHTTP_Panic env c r port).
Qed.

Example relay_breaks_off :
  ServeHTTP Published.env Sample.client (Sample.get "/devtools/page/27E1")
  = Panic (incRequestCount Sample.client)
  /\ ServeHTTP Published.env Sample.client (Sample.upgrade "/devtools/page/27E1")
     = Panic (incRequestCount Sample.client)
  /\ exists w, ServeHTTP Published.env Sample.client (Sample.get "/metrics")
               = Done (incRequestCount Sample.client) w.
Proof. split; [| split]; [reflexivity | reflexivity | by eexists]. Qed.

(** X5.  For a client of the proxy, a discovery handler never panics and
    answers by this table.  The GET to the target failed: 502.  The body
    could not be read, or not decoded, or the rewritten document not encoded:
    500.  Otherwise: 200 with the rewritten document.  With every 500 and 502
    the answer is the plain-text message, the error counter goes up by one
    and nothing else in the client changes; with a 200 the client stays as it
    was. *)
Theorem discovery_answers_200_500_502 env c r port :
  serving port c ->
  ((forall err,
       client_Get env (versionURL c) = GetError err ->
       failed_with c 502 ("Failed to get JSON version: " +:+ err) (handleJsonVersion env c r))
   /\ (forall err,
       client_Get env (versionURL c) = ReadError err ->
       failed_with c 500 ("Failed to read response body: " +:+ err)
         (handleJsonVersion env c r))
   /\ (forall body err,
       client_Get env (versionURL c) = FetchedBody body ->
       json_Unmarshal_map env body = Err err ->
       failed_with c 500 ("Failed to unmarshal response body: " +:+ err)
         (handleJsonVersion env c r))
   /\ (forall body d,
       client_Get env (versionURL c) = FetchedBody body ->
       json_Unmarshal_map env body = Ok d ->
       exists d',
         version_rewritten port (Host r) d d'
         /\ (forall err,
             json_Marshal env (value_of_map d') = Err err ->
             failed_with c 500 ("Failed to marshal response body: " +:+ err)
               (handleJsonVersion env c r))
         /\ (forall len,
             json_Marshal env (value_of_map d') = Ok len ->
             handleJsonVersion env c r
             = Done c {| StatusCode := 200;
                         RespHeader := [("Content-Type", "application/json");
                                        ("Content-Length", GoStrconv.Itoa (Z.of_nat len))];
                         Body := JSON (value_of_map d') |})))
  /\ ((forall err,
       client_Get env (listURL c r) = GetError err ->
       failed_with c 502 ("Failed to get JSON list: " +:+ err) (handleJsonList env c r))
   /\ (forall err,
       client_Get env (listURL c r) = ReadError err ->
       failed_with c 500 ("Failed to read response body: " +:+ err) (handleJsonList env c r))
   /\ (forall body err,
       client_Get env (listURL c r) = FetchedBody body ->
       json_Unmarshal_slice env body = Err err ->
       failed_with c 500 ("Failed to unmarshal response body: " +:+ err)
         (handleJsonList env c r))
   /\ (forall body d,
       client_Get env (listURL c r) = FetchedBody body ->
       json_Unmarshal_slice env body = Ok d ->
       exists d',
         targets_rewritten port (Host r) d d'
         /\ (forall err,
             json_Marshal env (value_of_slice d') = Err err ->
             failed_with c 500 ("Failed to marshal response body: " +:+ err)
               (handleJsonList env c r))
         /\ (forall len,
             json_Marshal env (value_of_slice d') = Ok len ->
             handleJsonList env c r
             = Done c {| StatusCode := 200;
                         RespHeader := [("Content-Type", "application/json");
                                        ("Content-Length", GoStrconv.Itoa (Z.of_nat len))];
                         Body := JSON (value_of_slice d') |}))).
Proof.
  intros Hc. split.
  - refine (conj _ (conj _ (conj _ _))).
    + intros err Hget. unfold handleJsonVersion. fold (versionURL c). rewrite Hget.
      apply failed_with_http_Error.
    + intros err Hget. unfold handleJsonVersion. fold (versionURL c). rewrite Hget.
      apply failed_with_http_Error.
    + intros body err Hget Hdec. unfold handleJsonVersion. fold (versionURL c).
      rewrite Hget, Hdec. apply failed_with_http_Error.
    + intros body d Hget Hdec.
      destruct (version_rewritten_total port (Host r) d) as [d' Hd'].
      exists d'. split; [done |].
      pose proof (version_rewritten_sound port c _ d d' Hc Hd') as Hrw.
      split.
      * intros err Henc. unfold handleJsonVersion. fold (versionURL c).
        rewrite Hget, Hdec, Hrw, Henc. apply failed_with_http_Error.
      * intros len Henc. unfold handleJsonVersion. fold (versionURL c).
        by rewrite Hget, Hdec, Hrw, Henc.
  - refine (conj _ (conj _ (conj _ _))).
    + intros err Hget. unfold handleJsonList. fold (listURL c r). rewrite Hget.
      apply failed_with_http_Error.
    + intros err Hget. unfold handleJsonList. fold (listURL c r). rewrite Hget.
      apply failed_with_http_Error.
    + intros body err Hget Hdec. unfold handleJsonList. fold (listURL c r).
      rewrite Hget, Hdec. apply failed_with_http_Error.
    + intros body d Hget Hdec.
      destruct (targets_rewritten_total port (Host r) d) as [d' Hd'].
      exists d'. split; [done |].
      pose proof (targets_rewritten_sound port c _ d d' Hc Hd') as Hrw.
      split.
      * intros err Henc. unfold handleJsonList. fold (listURL c r).
        rewrite Hget, Hdec, Hrw, Henc. apply failed_with_http_Error.
      * intros len Henc. unfold handleJsonList. fold (listURL c r).
        by rewrite Hget, Hdec, Hrw, Henc.
Qed.

Lemma discovery_answers_200_500_502_witness :
  failed_with Sample.client 502 "Failed to get JSON list: connection refused"
    (handleJsonList Sample.down Sample.client (Sample.get "/json"))
  /\ failed_with Sample.client 500 "Failed to read response body: unexpected EOF"
       (handleJsonVersion
          (Sample.env (fun _ => ReadError "unexpected EOF") (fun _ => Err "connection refused"))
          Sample.client (Sample.get "/json/version"))
  /\ failed_with Sample.client 500 "Failed to unmarshal response body: invalid character"
       (handleJsonVersion Sample.garbled Sample.client (Sample.get "/json/version"))
  /\ exists d',
      targets_rewritten 9222 "9223-host.example" (Slice [Map Sample.pageDoc]) d'
      /\ handleJsonList Sample.up Sample.client (Sample.get "/json")
         = Done Sample.client
             {| StatusCode := 200;
                RespHeader := [("Content-Type", "application/json");
                               ("Content-Length", "128")];
                Body := JSON (value_of_slice d') |}.
Proof.
  destruct (discovery_answers_200_500_502 Sample.down Sample.client (Sample.get "/json")
              9222 eq_refl) as (_ & Hget & _).
  destruct (discovery_answers_200_500_502
              (Sample.env (fun _ => ReadError "unexpected EOF")
                 (fun _ => Err "connection refused"))
              Sample.client (Sample.get "/json/version") 9222 eq_refl)
    as ((_ & Hread & _) & _).
  destruct (discovery_answers_200_500_502 Sample.garbled Sample.client
              (Sample.get "/json/version") 9222 eq_refl) as ((_ & _ & Hdec & _) & _).
  destruct (discovery_answers_200_500_502 Sample.up Sample.client (Sample.get "/json")
              9222 eq_refl) as (_ & _ & _ & _ & Hok).
  split; [exact (Hget "connection refused" eq_refl) |].
  split; [exact (Hread "unexpected EOF" eq_refl) |].
  split; [exact (Hdec Sample.notJSON "invalid character" eq_refl eq_refl) |].
  destruct (Hok Sample.listBody (Slice [Map Sample.pageDoc]) eq_refl eq_refl)
    as (d' & Hd' & _ & Hrun).
  exists d'. split; [exact Hd' | exact (Hrun 128%nat eq_refl)].
Defined.

Section CountingFacts.

Lemma ServeHTTP_errorCount env c r port :
  serving port c ->
  errorCount (client_of (ServeHTTP env c r))
  = if discoveryFailed env c r then int64_incr (errorCount c) else errorCount c.
Proof.
  intros Hc. assert (serving port (incRequestCount c)) as Hc' by done.
  unfold discoveryFailed, ServeHTTP.
  destruct (dispatch env r).
  - by rewrite handleHealth_client.
  - done.
  - destruct (handleJsonVersion_cases env _ r port Hc')
      as [(msg & code & -> & [-> | ->]) | (len & v & ->)]; done.
  - destruct (handleJsonList_cases env _ r port Hc')
      as [(msg & code & -> & [-> | ->]) | (len & v & ->)]; done.
  - by rewrite proxy_ServeHTTP_client.
  - by rewrite proxy_ServeHTTP_client.
Qed.

Lemma failures_le reqs c : (failures reqs c <= List.length reqs)%nat.
Proof.
  revert c. induction reqs as [|[env r] reqs IH]; intros c; simpl; [lia |].
  specialize (IH (client_of (ServeHTTP env c r))).
  destruct (discoveryFailed env c r); lia.
Qed.

Lemma serveAll_counters reqs c port :
  serving port c ->
  (0 <= requestCount c)%Z -> (0 <= errorCount c)%Z ->
  (requestCount c + Z.of_nat (List.length reqs) < 2 ^ 63)%Z ->
  (errorCount c + Z.of_nat (List.length reqs) < 2 ^ 63)%Z ->
  requestCount (serveAll reqs c) = (requestCount c + Z.of_nat (List.length reqs))%Z
  /\ errorCount (serveAll reqs c) = (errorCount c + Z.of_nat (failures reqs c))%Z.
Proof.
  revert c. induction reqs as [|[env r] reqs IH]; intros c Hc Hr He Hrmax Hemax.
  { simpl. split; lia. }
  simpl List.length in *. simpl failures.
  change (serveAll ((env, r) :: reqs) c)
    with (serveAll reqs (client_of (ServeHTTP env c r))).
  pose proof (ServeHTTP_requestCount env c r) as Hreq.
  pose proof (ServeHTTP_errorCount env c r port Hc) as Herr.
  rewrite int64_incr_below in Hreq by lia.
  pose proof (failures_le reqs (client_of (ServeHTTP env c r))) as Hle.
  destruct (IH (client_of (ServeHTTP env c r))) as [IHr IHe].
  - by apply ServeHTTP_serving.
  - lia.
  - rewrite Herr. destruct (discoveryFailed env c r);
      rewrite ?int64_incr_below by lia; lia.
  - lia.
  - rewrite Herr. destruct (discoveryFailed env c r);
      rewrite ?int64_incr_below by lia; lia.
  - rewrite IHr, IHe, Hreq, Herr. simpl.
    destruct (discoveryFailed env c r); rewrite ?int64_incr_below by lia; lia.
Qed.

End CountingFacts.

(** X7.  Served one after the other from a fresh client, [n] requests leave
    the request counter at [n] and the error counter at the number of
    discovery requests among them that were not answered with 200; a
    [/metrics] request after them reports [n + 1] and that number. *)
Theorem metrics_after_a_run port timeoutSec now reqs env r :
  (Z.of_nat (List.length reqs) < 2 ^ 63 - 1)%Z ->
  dispatch env r = ToMetrics ->
  let c0 := NewChromeDevToolsClient port timeoutSec now in
  requestCount (serveAll reqs c0) = Z.of_nat (List.length reqs)
  /\ errorCount (serveAll reqs c0) = Z.of_nat (failures reqs c0)
  /\ (failures reqs c0 <= List.length reqs)%nat
  /\ exists c' w (m : gmap string value),
      ServeHTTP env (serveAll reqs c0) r = Done c' w
      /\ Body w = JSONLine (VMap m)
      /\ m !! "requests_total" = Some (VInt64 (Z.of_nat (List.length reqs) + 1))
      /\ m !! "errors_total" = Some (VInt64 (Z.of_nat (failures reqs c0))).
Proof.
  intros Hlen Hroute c0.
  destruct (serveAll_counters reqs c0 port) as [Hreq Herr];
    [apply serving_New | done | done | simpl; lia | simpl; lia |].
  simpl in Hreq, Herr.
  split; [exact Hreq |]. split; [exact Herr |]. split; [apply failures_le |].
  unfold ServeHTTP. rewrite Hroute. unfold handleMetrics.
  eexists _, _, _. split; [reflexivity |]. split; [reflexivity |]. split.
  - rewrite lookup_insert_eq. simpl. rewrite Hreq.
    by rewrite int64_incr_below by lia.
  - rewrite lookup_insert_ne by done. rewrite lookup_insert_eq. simpl. by rewrite Herr.
Qed.

Lemma metrics_after_a_run_witness :
  requestCount (serveAll [(Sample.down, Sample.get "/json/version");
                          (Sample.up, Sample.get "/json");
                          (Sample.down, Sample.get "/health")] Sample.client) = 3%Z
  /\ errorCount (serveAll [(Sample.down, Sample.get "/json/version");
                           (Sample.up, Sample.get "/json");
                           (Sample.down, Sample.get "/health")] Sample.client) = 1%Z.
Proof.
  destruct (metrics_after_a_run 9222 30 1753999999000000000
              [(Sample.down, Sample.get "/json/version");
               (Sample.up, Sample.get "/json");
               (Sample.down, Sample.get "/health")]
              Sample.up (Sample.get "/metrics")) as (Hreq & Herr & _).
  - simpl. lia.
  - reflexivity.
  - split; [exact Hreq | exact Herr].
Defined.

(** X1.  [GET /health] answers by the transport alone: 503 with status
    [unhealthy] and the error text when the GET to the target fails, and 200
    with status [healthy] as soon as the target answers at all, whatever the
    body (it is closed unread).  Either way the error counter is left as it
    was. *)
Theorem health_follows_the_transport env c r :
  Method r = "GET" -> URL_Path r = "/health" ->
  (forall err,
      client_Get env (versionURL c) = GetError err ->
      ServeHTTP env c r
      = Done (incRequestCount c)
          {| StatusCode := 503;
             RespHeader := [];
             Body := JSONLine (VMap (<["status" := VString "unhealthy"]>
                                     (<["error" := VString err]> ∅))) |})
  /\ ((forall err, client_Get env (versionURL c) <> GetError err) ->
      exists m : gmap string value,
        ServeHTTP env c r
        = Done (incRequestCount c)
            {| StatusCode := 200;
               RespHeader := [("Content-Type", "application/json")];
               Body := JSONLine (VMap m) |}
        /\ m !! "status" = Some (VString "healthy")
        /\ m !! "timestamp" = Some (VInt64 (time_Now env / 1000000000)))
  /\ errorCount (client_of (ServeHTTP env c r)) = errorCount c.
Proof.
  intros Hm Hp.
  assert (ServeHTTP env c r = handleHealth env (incRequestCount c) r) as ->.
  { unfold ServeHTTP, dispatch. by rewrite Hm, Hp. }
  unfold handleHealth. change (targetHostPort (incRequestCount c)) with (targetHostPort c).
  fold (versionURL c).
  destruct (client_Get env (versionURL c)) as [err|err|body] eqn:Hget.
  - split; [by intros ? [= <-] |]. split; [intros H; by destruct (H err) | done].
  - split; [done |]. split; [| done]. intros _. eexists. split; [reflexivity |].
    split; [apply lookup_insert_eq |].
    rewrite !lookup_insert_ne by done. apply lookup_insert_eq.
  - split; [done |]. split; [| done]. intros _. eexists. split; [reflexivity |].
    split; [apply lookup_insert_eq |].
    rewrite !lookup_insert_ne by done. apply lookup_insert_eq.
Qed.

Lemma health_follows_the_transport_witness :
  ServeHTTP Sample.down Sample.client (Sample.get "/health")
  = Done (incRequestCount Sample.client)
      {| StatusCode := 503;
         RespHeader := [];
         Body := JSONLine (VMap (<["status" := VString "unhealthy"]>
                                 (<["error" := VString "connection refused"]> ∅))) |}
  /\ (exists m : gmap string value,
        ServeHTTP Sample.garbled Sample.client (Sample.get "/health")
        = Done (incRequestCount Sample.client)
            {| StatusCode := 200;
               RespHeader := [("Content-Type", "application/json")];
               Body := JSONLine (VMap m) |}
        /\ m !! "status" = Some (VString "healthy")
        /\ m !! "timestamp" = Some (VInt64 (time_Now Sample.garbled / 1000000000))).
Proof.
  destruct (health_follows_the_transport Sample.down Sample.client (Sample.get "/health")
              eq_refl eq_refl) as (Hdown & _).
  destruct (health_follows_the_transport Sample.garbled Sample.client (Sample.get "/health")
              eq_refl eq_refl) as (_ & Hup & _).
  split.
  - exact (Hdown "connection refused" eq_refl).
  - apply Hup. intros err. discriminate.
Defined.

Section HandshakeFacts.
Implicit Types s t word : string.

(** On ASCII strings [ToLower] is the byte-wise map, whatever the Unicode
    tables say. *)
Lemma ToLower_ASCII unicodeLower s : isASCII s = true -> ToLower unicodeLower s = lowerASCII s.
Proof. unfold ToLower. by intros ->. Qed.

Lemma lowerASCII_append s t : lowerASCII (s +:+ t) = lowerASCII s +:+ lowerASCII t.
Proof. induction s as [|a s IH]; simpl; [done | by rewrite IH]. Qed.

Lemma lowerASCII_take n s : lowerASCII (take n s) = take n (lowerASCII s).
Proof.
  revert s. induction n as [|n IH]; intros [|a s]; simpl; try done. by rewrite IH.
Qed.

Lemma lowerASCII_drop n s : lowerASCII (drop n s) = drop n (lowerASCII s).
Proof.
  revert s. induction n as [|n IH]; intros [|a s]; simpl; try done.
Qed.

Lemma take_drop_string s n : take n s +:+ drop n s = s.
Proof.
  revert s. induction n as [|n IH]; intros [|a s]; simpl; try done. by rewrite IH.
Qed.

Lemma lowerByte_letter l c :
  (97 <= nat_of_ascii l <= 122)%nat -> lowerByte c = l <-> letter_of l c.
Proof.
  intros Hl. unfold lowerByte, letter_of.
  pose proof (nat_ascii_bounded c) as Hc.
  destruct ((65 <=? nat_of_ascii c)%nat && (nat_of_ascii c <=? 90)%nat) eqn:Hup.
  - apply andb_true_iff in Hup as [H1%Nat.leb_le H2%Nat.leb_le]. split.
    + intros <-. right. rewrite nat_ascii_embedding; lia.
    + intros [-> | Heq]; [lia |]. by rewrite Heq, ascii_nat_embedding.
  - split; [by left |]. intros [-> | Heq]; [done |].
    apply andb_false_iff in Hup as [H%Nat.leb_gt | H%Nat.leb_gt]; lia.
Qed.

(** What the byte-wise map sends to a given lower-case word. *)
Lemma lowerASCII_spells word s :
  lower_case_word word -> lowerASCII s = word <-> spells word s.
Proof.
  revert s. induction word as [|l word IH]; intros [|c s] Hword; simpl; try done.
  destruct Hword as [Hl Hword]. rewrite <-(IH s Hword), <-(lowerByte_letter l c Hl).
  split; [by intros [= -> ->] | by intros [-> ->]].
Qed.

Lemma Contains_decompose s p :
  Contains s p = true <-> exists before after, s = before +:+ p +:+ after.
Proof.
  split.
  - intros (before & after & -> & _)%Contains_true_inv. eauto.
  - intros (before & after & ->). apply Contains_instance.
Qed.

Lemma lowerASCII_Contains_spells word s :
  lower_case_word word ->
  Contains (lowerASCII s) word = true
  <-> exists before mid after, s = before +:+ mid +:+ after /\ spells word mid.
Proof.
  intros Hword. rewrite Contains_decompose. split.
  - intros (x & y & Heq).
    exists (take (String.length x) s),
           (take (String.length word) (drop (String.length x) s)),
           (drop (String.length word) (drop (String.length x) s)).
    split; [by rewrite !take_drop_string |].
    apply lowerASCII_spells; [done |].
    by rewrite lowerASCII_take, lowerASCII_drop, Heq, drop_append, take_append.
  - intros (before & mid & after & -> & Hmid%lowerASCII_spells); [| done].
    exists (lowerASCII before), (lowerASCII after). by rewrite !lowerASCII_append, Hmid.
Qed.

Lemma Header_Get_Set h k v : Header_Get (Header_Set h k v) k = v.
Proof. unfold Header_Get, Header_Set. by rewrite lookup_insert_eq. Qed.

Lemma Header_Get_Set_ne h k k' v :
  k <> k' -> Header_Get (Header_Set h k v) k' = Header_Get h k'.
Proof. intros Hk. unfold Header_Get, Header_Set. by rewrite lookup_insert_ne. Qed.

End HandshakeFacts.

(** X9.  The requests [isWebSocketUpgrade] accepts, when the first [Upgrade]
    and [Connection] values are ASCII: those whose [Upgrade] value spells
    [websocket] in some mix of upper and lower case, with nothing before or
    after, and whose [Connection] value contains a spelling of [upgrade].  A
    request without one of the two headers is none.  (Outside ASCII the
    lower-casing is by Unicode rune, and more is accepted: see
    [kelvin_sign_is_accepted].) *)
Theorem upgrade_headers_accepted env r :
  (isASCII (Header_Get (Header r) "Upgrade") = true ->
   isASCII (Header_Get (Header r) "Connection") = true ->
   (isWebSocketUpgrade env r = true
    <-> spells "websocket" (Header_Get (Header r) "Upgrade")
        /\ exists before mid after,
            Header_Get (Header r) "Connection" = before +:+ mid +:+ after
            /\ spells "upgrade" mid))
  /\ (Header r !! "Upgrade" = None \/ Header r !! "Connection" = None ->
      isWebSocketUpgrade env r = false).
Proof.
  assert (lower_case_word "websocket") as Hws
    by (simpl; repeat split; apply Nat.leb_le; reflexivity).
  assert (lower_case_word "upgrade") as Hup
    by (simpl; repeat split; apply Nat.leb_le; reflexivity).
  split.
  - intros Hu Hc. rewrite isWebSocketUpgrade_spec.
    rewrite (ToLower_ASCII _ _ Hu), (ToLower_ASCII _ _ Hc).
    by rewrite (lowerASCII_spells _ _ Hws), (lowerASCII_Contains_spells _ _ Hup).
  - unfold isWebSocketUpgrade, Header_Get. intros [-> | ->]; [done |].
    apply andb_false_r.
Qed.

Lemma upgrade_headers_accepted_witness :
  isWebSocketUpgrade Sample.up (Sample.upgrade "/devtools/page/XYZ") = true
  /\ isWebSocketUpgrade Sample.up (Sample.get "/devtools/page/XYZ") = false.
Proof.
  split.
  - apply (upgrade_headers_accepted Sample.up (Sample.upgrade "/devtools/page/XYZ"));
      [reflexivity | reflexivity |]. split.
    + simpl. repeat split; first [by left | by right].
    + exists "keep-alive, ", "Upgrade", "". split; [reflexivity |].
      simpl. repeat split; first [by left | by right].
  - apply (upgrade_headers_accepted Sample.up (Sample.get "/devtools/page/XYZ")).
    left. reflexivity.
Defined.

(** Outside ASCII: [unicode.ToLower] sends the Kelvin sign (U+212A) to [k],
    so this [Upgrade] value is accepted although it does not spell
    [websocket] in ASCII letters. *)
Example kelvin_sign_is_accepted :
  let r := {| Method := "GET"; URL_Path := "/devtools/page/XYZ";
              Host := "9223-host.example";
              Header := <["Upgrade" := ["WebSoc" +:+ Sample.kelvin +:+ "et"]]>
                        (<["Connection" := ["Upgrade"]]> ∅) |} in
  isASCII (Header_Get (Header r) "Upgrade") = false
  /\ isWebSocketUpgrade Sample.up r = true
  /\ ~ spells "websocket" (Header_Get (Header r) "Upgrade").
Proof.
  split; [reflexivity |]. split; [reflexivity |].
  vm_compute. intros (_ & _ & _ & _ & _ & _ & [Hk | Hk] & _); discriminate.
Qed.

(** X8.  What [NewChromeDevToolsClient] adds to the stock [Director]: the
    handshake headers of a WebSocket upgrade request become
    [Connection: Upgrade] and [Upgrade: websocket], whatever their case and
    whatever else [Connection] listed; no other header is touched, and a
    request that is no upgrade is left alone.  The result is an upgrade
    request exactly when the input was, and directing twice is directing
    once. *)
Theorem Director_sets_the_handshake_headers env r :
  (isWebSocketUpgrade env r = true ->
   Header_Get (Header (Director env r)) "Connection" = "Upgrade"
   /\ Header_Get (Header (Director env r)) "Upgrade" = "websocket"
   /\ forall k, k <> "Connection" -> k <> "Upgrade" ->
        Header (Director env r) !! k = Header r !! k)
  /\ (isWebSocketUpgrade env r = false -> Director env r = r)
  /\ isWebSocketUpgrade env (Director env r) = isWebSocketUpgrade env r
  /\ Director env (Director env r) = Director env r.
Proof.
  assert (isWebSocketUpgrade env r = true -> isWebSocketUpgrade env (Director env r) = true)
    as Hkeep.
  { intros Hr. unfold Director. rewrite Hr. unfold isWebSocketUpgrade. simpl.
    rewrite Header_Get_Set, Header_Get_Set_ne, Header_Get_Set by done. reflexivity. }
  refine (conj _ (conj _ (conj _ _))).
  - intros Hr. unfold Director. rewrite Hr. simpl.
    split; [by rewrite Header_Get_Set_ne, Header_Get_Set |].
    split; [by rewrite Header_Get_Set |].
    intros k Hc Hu. unfold Header_Set. by rewrite !lookup_insert_ne.
  - intros Hr. unfold Director. by rewrite Hr.
  - destruct (isWebSocketUpgrade env r) eqn:Hr; [by apply Hkeep |].
    unfold Director. by rewrite Hr.
  - destruct (isWebSocketUpgrade env r) eqn:Hr.
    + unfold Director at 1. rewrite (Hkeep eq_refl). unfold Director. rewrite Hr. simpl.
      f_equal. unfold Header_Set.
      rewrite (insert_insert_ne _ "Connection" "Upgrade") by done.
      by rewrite !insert_insert_eq.
    + unfold Director. by rewrite !Hr.
Qed.

Lemma Director_sets_the_handshake_headers_witness :
  Header_Get (Header (Director Sample.up (Sample.upgrade "/devtools/page/XYZ"))) "Connection"
  = "Upgrade"
  /\ Header_Get (Header (Director Sample.up (Sample.upgrade "/devtools/page/XYZ"))) "Upgrade"
     = "websocket"
  /\ Director Sample.up (Sample.get "/json/new") = Sample.get "/json/new".
Proof.
  destruct (Director_sets_the_handshake_headers Sample.up (Sample.upgrade "/devtools/page/XYZ"))
    as (Hup & _).
  destruct (Director_sets_the_handshake_headers Sample.up (Sample.get "/json/new"))
    as (_ & Hplain & _).
  destruct (Hup eq_refl) as (Hc & Hu & _).
  split; [exact Hc |]. split; [exact Hu | exact (Hplain eq_refl)].
Defined.

Section SplitFacts.
Implicit Types s sep : string.

Lemma genSplit_cons fuel s sep : exists h t, genSplit fuel s sep = h :: t.
Proof. destruct fuel; simpl; [by eauto |]. destruct (Index s sep); eauto. Qed.

Lemma genSplit_S fuel s sep :
  genSplit (S fuel) s sep
  = match Index s sep with
    | None => [s]
    | Some i => take i s :: genSplit fuel (drop (i + String.length sep) s) sep
    end.
Proof. reflexivity. Qed.

Lemma Split_present s :
  Contains s ":" = true -> exists a b rest, Split s ":" = a :: b :: rest.
Proof.
  intros [i Hi]%Contains_true_Index. unfold Split.
  destruct s as [|c s]; [done |].
  simpl String.length. rewrite genSplit_S, Hi.
  destruct (genSplit_cons (String.length s) (drop (i + String.length ":") (String c s)) ":")
    as (b & rest & ->).
  eauto.
Qed.

End SplitFacts.

(** X2.  [rewriteWebSocketURL] panics exactly when [targetHostPort] holds no
    colon, whatever the URL and the public address are (the pattern list is
    built before the URL is looked at). *)
Theorem rewrite_panics_without_colon url target pub :
  rewriteWebSocketURL url target pub = None <-> Contains target ":" = false.
Proof.
  unfold rewriteWebSocketURL, patterns. split.
  - intros Hnone. destruct (Contains target ":") eqn:Hcolon; [| done].
    destruct (Split_present target Hcolon) as (a & b & rest & Hsplit).
    by rewrite Hsplit in Hnone.
  - intros Hcolon. by rewrite (Split_absent _ _ Hcolon).
Qed.

Lemma rewrite_panics_without_colon_witness :
  rewriteWebSocketURL "wss://9223-host.example/devtools/browser/abc123" "localhost"
    "9223-host.example" = None.
Proof. apply rewrite_panics_without_colon. reflexivity. Defined.

Section LoopFacts.
Implicit Types url pub p : string.
Implicit Types pats : list string.

Lemma rewriteLoop_cases pats url pub :
  (rewriteLoop pats url pub = url /\ forall q, q ∈ pats -> Contains url q = false)
  \/ exists earlier p later before after,
      pats = (earlier ++ p :: later)%list
      /\ (forall q, q ∈ earlier -> Contains url q = false)
      /\ first_instance url p before after
      /\ rewriteLoop pats url pub = before +:+ ("wss://" +:+ pub) +:+ after.
Proof.
  induction pats as [|p pats IH].
  - left. split; [done |]. intros q Hq. by apply elem_of_nil in Hq.
  - rewrite rewriteLoop_cons. destruct (Contains url p) eqn:Hp.
    + right. destruct (Contains_true_inv _ _ Hp) as (before & after & Hfirst).
      exists [], p, pats, before, after. split; [done |].
      split; [intros q Hq; by apply elem_of_nil in Hq |]. split; [done |].
      by apply Replace_first_instance.
    + destruct IH as [[Heq Habsent] | (earlier & p' & later & before & after & -> & Hearlier & Hfirst & Heq)].
      * left. split; [done |]. intros q [-> | Hq]%elem_of_cons; auto.
      * right. exists (p :: earlier), p', later, before, after.
        split; [done |]. split; [| done].
        intros q [-> | Hq]%elem_of_cons; auto.
Qed.

(** A pattern listed a second time never matches. *)
Lemma rewriteLoop_repeated pats p url pub :
  p ∈ pats \/ Contains url p = false ->
  rewriteLoop (pats ++ [p])%list url pub = rewriteLoop pats url pub.
Proof.
  induction pats as [|x pats IH]; intros Hp.
  - destruct Hp as [Hp | Hp]; [by apply elem_of_nil in Hp |].
    simpl app. by rewrite rewriteLoop_cons, Hp.
  - simpl app. rewrite !rewriteLoop_cons. destruct (Contains url x) eqn:Hx; [done |].
    apply IH. destruct Hp as [[-> | Hp]%elem_of_cons | Hp]; auto.
Qed.

End LoopFacts.

(** X3.  The result of [rewriteWebSocketURL] is its input, when none of the
    patterns occurs in it, or differs from it in one place: the leftmost
    instance of the first pattern that occurs is replaced by
    [wss://<public>], and the length changes by the difference between the
    two. *)
Theorem rewrite_changes_at_most_one_place url target pub pats out :
  patterns target = Some pats ->
  rewriteWebSocketURL url target pub = Some out ->
  (out = url /\ forall q, q ∈ pats -> Contains url q = false)
  \/ exists earlier p later before after,
      pats = (earlier ++ p :: later)%list
      /\ (forall q, q ∈ earlier -> Contains url q = false)
      /\ first_instance url p before after
      /\ out = before +:+ "wss://" +:+ pub +:+ after
      /\ String.length out + String.length p
         = (String.length url + String.length ("wss://" +:+ pub))%nat.
Proof.
  intros Hpats. unfold rewriteWebSocketURL. rewrite Hpats. simpl. intros [= <-].
  destruct (rewriteLoop_cases pats url pub)
    as [[Heq Habsent] | (earlier & p & later & before & after & -> & Hearlier & Hfirst & Heq)].
  - left. by split.
  - right. exists earlier, p, later, before, after.
    split; [done |]. split; [done |]. split; [done |].
    rewrite Heq. split; [by rewrite append_assoc |].
    destruct Hfirst as [-> _]. rewrite !length_append. simpl String.length. lia.
Qed.

Lemma rewrite_changes_at_most_one_place_witness :
  ("wss://9223-host.example/devtools/page/A" = "ws://localhost:9222/devtools/page/A"
   /\ forall q, q ∈ ["ws://localhost:9222"; "ws://127.0.0.1:9222"; "ws://localhost:9222"] ->
        Contains "ws://localhost:9222/devtools/page/A" q = false)
  \/ exists earlier p later before after,
      ["ws://localhost:9222"; "ws://127.0.0.1:9222"; "ws://localhost:9222"]
      = (earlier ++ p :: later)%list
      /\ (forall q, q ∈ earlier -> Contains "ws://localhost:9222/devtools/page/A" q = false)
      /\ first_instance "ws://localhost:9222/devtools/page/A" p before after
      /\ "wss://9223-host.example/devtools/page/A"
         = before +:+ "wss://" +:+ "9223-host.example" +:+ after
      /\ String.length "wss://9223-host.example/devtools/page/A" + String.length p
         = (String.length "ws://localhost:9222/devtools/page/A"
            + String.length ("wss://" +:+ "9223-host.example"))%nat.
Proof.
  apply (rewrite_changes_at_most_one_place "ws://localhost:9222/devtools/page/A"
           "localhost:9222" "9223-host.example"); reflexivity.
Defined.

(** X11.  For a client of the proxy the third pattern is the first one
    again ([ws://localhost:<port>]), so it is never the one that matches:
    the rewrite is the loop over the first two patterns. *)
Theorem third_pattern_never_matches c port url pub :
  serving port c ->
  rewriteWebSocketURL url (targetHostPort c) pub
  = Some (rewriteLoop [ "ws://localhost:" +:+ GoStrconv.Itoa port;
                        "ws://127.0.0.1:" +:+ GoStrconv.Itoa port ] url pub).
Proof.
  intros Hc. unfold rewriteWebSocketURL. rewrite (serving_patterns port c Hc), Hc.
  change (Some (rewriteLoop ([ "ws://localhost:" +:+ GoStrconv.Itoa port;
                               "ws://127.0.0.1:" +:+ GoStrconv.Itoa port ]
                             ++ [ "ws://localhost:" +:+ GoStrconv.Itoa port ])%list url pub)
          = Some (rewriteLoop [ "ws://localhost:" +:+ GoStrconv.Itoa port;
                                "ws://127.0.0.1:" +:+ GoStrconv.Itoa port ] url pub)).
  f_equal. apply rewriteLoop_repeated. left. apply elem_of_cons. by left.
Qed.

Lemma third_pattern_never_matches_witness :
  rewriteWebSocketURL "ws://127.0.0.1:9222/devtools/page/A" (targetHostPort Sample.client)
    "9223-host.example"
  = Some (rewriteLoop [ "ws://localhost:" +:+ GoStrconv.Itoa 9222;
                        "ws://127.0.0.1:" +:+ GoStrconv.Itoa 9222 ]
            "ws://127.0.0.1:9222/devtools/page/A" "9223-host.example").
Proof. apply (third_pattern_never_matches Sample.client 9222). reflexivity. Defined.

Section SettledFacts.
Implicit Types target pub : string.
Implicit Types m : gmap string value.

Lemma rewriteDevURL_settled target pub m :
  settled ["ws=" +:+ target] (m !! devKey) -> rewriteDevURL target pub m = m.
Proof.
  unfold rewriteDevURL, settled, devKey.
  destruct (m !! "devtoolsFrontendUrl") as [[| | | |s| |]|] eqn:Hm; try done.
  intros Habsent. rewrite Replace_absent.
  - by apply insert_id.
  - apply Habsent. by apply list_elem_of_singleton.
Qed.

Lemma rewriteVersionData_settled target pub pats m :
  patterns target = Some pats ->
  settled pats (m !! wsKey) ->
  rewriteVersionData target pub (Map m) = Some (Map m).
Proof.
  intros Hpats. unfold rewriteVersionData, settled, wsKey.
  destruct (m !! "webSocketDebuggerUrl") as [[| | | |s| |]|] eqn:Hm; try done.
  intros Habsent. rewrite (rewriteWebSocketURL_absent _ _ _ _ Hpats Habsent). simpl.
  by rewrite insert_id.
Qed.

Lemma rewriteTarget_settled target pub pats e :
  patterns target = Some pats ->
  entry_settled target pats e ->
  rewriteTarget target pub e = Some e.
Proof.
  intros Hpats. destruct e as [|m]; [done |]. intros [Hws Hdev].
  unfold rewriteTarget. rewrite (rewriteDevURL_settled _ _ _ Hdev).
  unfold settled, wsKey in Hws.
  destruct (m !! "webSocketDebuggerUrl") as [[| | | |s| |]|] eqn:Hm; try done.
  rewrite (rewriteWebSocketURL_absent _ _ _ _ Hpats Hws). simpl.
  by rewrite insert_id.
Qed.

Lemma rewriteTargets_settled target pub pats l :
  patterns target = Some pats ->
  Forall (entry_settled target pats) l ->
  rewriteTargets target pub (Slice l) = Some (Slice l).
Proof.
  intros Hpats Hl. unfold rewriteTargets.
  rewrite (mapM_Some_2 _ l l); [done |].
  induction Hl as [|e l He Hl IH]; constructor; [| done].
  by eapply rewriteTarget_settled.
Qed.

End SettledFacts.

(** X4.  A document with nothing to rewrite is delivered as it was decoded:
    the version document when its [webSocketDebuggerUrl] is missing, not a
    string, or free of the patterns; the list when that holds of every entry
    and of [ws=<target>] in its [devtoolsFrontendUrl] (the empty list, too). *)
Theorem settled_documents_pass_unchanged env c r pats body len :
  patterns (targetHostPort c) = Some pats ->
  (forall m : gmap string value,
      client_Get env (versionURL c) = FetchedBody body ->
      json_Unmarshal_map env body = Ok (Map m) ->
      settled pats (m !! wsKey) ->
      json_Marshal env (VMap m) = Ok len ->
      handleJsonVersion env c r
      = Done c {| StatusCode := 200;
                  RespHeader := [("Content-Type", "application/json");
                                 ("Content-Length", GoStrconv.Itoa (Z.of_nat len))];
                  Body := JSON (VMap m) |})
  /\ (forall l,
      client_Get env (listURL c r) = FetchedBody body ->
      json_Unmarshal_slice env body = Ok (Slice l) ->
      Forall (entry_settled (targetHostPort c) pats) l ->
      json_Marshal env (VSlice (value_of_map <$> l)) = Ok len ->
      handleJsonList env c r
      = Done c {| StatusCode := 200;
                  RespHeader := [("Content-Type", "application/json");
                                 ("Content-Length", GoStrconv.Itoa (Z.of_nat len))];
                  Body := JSON (VSlice (value_of_map <$> l)) |}).
Proof.
  intros Hpats. split.
  - intros m Hget Hdec Hm Henc. unfold handleJsonVersion. fold (versionURL c).
    rewrite Hget, Hdec, (rewriteVersionData_settled _ _ _ _ Hpats Hm).
    change (value_of_map (Map m)) with (VMap m). by rewrite Henc.
  - intros l Hget Hdec Hl Henc. unfold handleJsonList. fold (listURL c r).
    rewrite Hget, Hdec, (rewriteTargets_settled _ _ _ _ Hpats Hl).
    change (value_of_slice (Slice l)) with (VSlice (value_of_map <$> l)).
    by rewrite Henc.
Qed.

Lemma settled_documents_pass_unchanged_witness :
  handleJsonVersion Published.env Sample.client (Sample.get "/json/version")
  = Done Sample.client
      {| StatusCode := 200;
         RespHeader := [("Content-Type", "application/json"); ("Content-Length", "95")];
         Body := JSON (VMap Published.versionDoc) |}
  /\ handleJsonList Published.env Sample.client (Sample.get "/json")
     = Done Sample.client
         {| StatusCode := 200;
            RespHeader := [("Content-Type", "application/json"); ("Content-Length", "215")];
            Body := JSON (VSlice [VMap Published.pageDoc; VMap Published.workerDoc]) |}
  /\ handleJsonList Idle.env Sample.client (Sample.get "/json")
     = Done Sample.client
         {| StatusCode := 200;
            RespHeader := [("Content-Type", "application/json"); ("Content-Length", "2")];
            Body := JSON (VSlice []) |}.
Proof.
  assert (forall s,
            Contains s "ws://localhost:9222" = false ->
            Contains s "ws://127.0.0.1:9222" = false ->
            forall q, q ∈ ["ws://localhost:9222"; "ws://127.0.0.1:9222"; "ws://localhost:9222"] ->
                      Contains s q = false) as Hfree.
  { intros s H1 H2 q Hq.
    repeat (apply elem_of_cons in Hq as [-> | Hq]; [assumption |]).
    by apply elem_of_nil in Hq. }
  split; [| split].
  - destruct (settled_documents_pass_unchanged Published.env Sample.client
                (Sample.get "/json/version")
                ["ws://localhost:9222"; "ws://127.0.0.1:9222"; "ws://localhost:9222"]
                "version" 95 eq_refl) as [Hversion _].
    apply Hversion; [reflexivity | reflexivity | | reflexivity].
    exact (Hfree "wss://9223-host.example/devtools/browser/abc123" eq_refl eq_refl).
  - destruct (settled_documents_pass_unchanged Published.env Sample.client
                (Sample.get "/json")
                ["ws://localhost:9222"; "ws://127.0.0.1:9222"; "ws://localhost:9222"]
                "list" 215 eq_refl) as [_ Hlist].
    apply (Hlist [Map Published.pageDoc; Map Published.workerDoc]);
      [reflexivity | reflexivity | | reflexivity].
    constructor; [| constructor; [| constructor]].
    + split.
      * exact (Hfree "wss://9223-host.example/devtools/page/27E1" eq_refl eq_refl).
      * assert (forall q, q ∈ ["ws=localhost:9222"] ->
                  Contains "/devtools/inspector.html?ws=9223-host.example/devtools/page/27E1" q
                  = false) as Hdev
          by (intros q Hq; by apply list_elem_of_singleton in Hq as ->).
        exact Hdev.
    + split; exact I.
  - destruct (settled_documents_pass_unchanged Idle.env Sample.client
                (Sample.get "/json")
                ["ws://localhost:9222"; "ws://127.0.0.1:9222"; "ws://localhost:9222"]
                "[]" 2 eq_refl) as [_ Hlist].
    apply (Hlist []); reflexivity || constructor.
Defined.

Section DecimalFacts.
Import GoStrconv.

Lemma decimal_from_shift v s :
  decimal_from v s = (v * 10 ^ Z.of_nat (String.length s) + decimal_from 0 s)%Z.
Proof.
  revert v. induction s as [|c s IH]; intros v; simpl String.length; simpl decimal_from.
  - change (Z.of_nat 0) with 0%Z. lia.
  - rewrite (IH (v * 10 + _)%Z), (IH (0 * 10 + _)%Z).
    rewrite Nat2Z.inj_succ, Z.pow_succ_r by lia. ring.
Qed.

Lemma digit_value d : (0 <= d < 10)%Z -> (Z.of_nat (nat_of_ascii (digit d)) - 48 = d)%Z.
Proof. intros Hd. unfold digit. rewrite nat_ascii_embedding; lia. Qed.

Lemma formatBits_value fuel u acc :
  (0 <= u < 10 ^ Z.of_nat (S fuel))%Z ->
  decimal_from 0 (formatBits (S fuel) u acc)
  = (u * 10 ^ Z.of_nat (String.length acc) + decimal_from 0 acc)%Z.
Proof.
  revert u acc. induction fuel as [|fuel IH]; intros u acc Hu.
  - change (10 ^ Z.of_nat 1)%Z with 10%Z in Hu.
    simpl formatBits. destruct (u <? 10)%Z eqn:Hlt; [| apply Z.ltb_ge in Hlt; lia].
    simpl decimal_from. rewrite decimal_from_shift, digit_value
      by (apply Z.mod_pos_bound; lia).
    rewrite Z.mod_small by lia. lia.
  - change (formatBits (S (S fuel)) u acc)
      with (if (u <? 10)%Z then String (digit (u mod 10)) acc
            else formatBits (S fuel) (u / 10) (String (digit (u mod 10)) acc)).
    assert (decimal_from 0 (String (digit (u mod 10)) acc)
            = (u mod 10 * 10 ^ Z.of_nat (String.length acc) + decimal_from 0 acc)%Z)
      as Hhead.
    { simpl decimal_from. rewrite decimal_from_shift, digit_value
        by (apply Z.mod_pos_bound; lia). lia. }
    destruct (u <? 10)%Z eqn:Hlt.
    + apply Z.ltb_lt in Hlt. rewrite Hhead, Z.mod_small by lia. done.
    + apply Z.ltb_ge in Hlt. rewrite IH.
      * rewrite Hhead. simpl String.length.
        rewrite Nat2Z.inj_succ, Z.pow_succ_r by lia.
        pose proof (Z.div_mod u 10 ltac:(lia)) as Hdm. nia.
      * split; [apply Z.div_pos; lia |].
        apply Z.div_lt_upper_bound; [lia |].
        rewrite (Nat2Z.inj_succ (S fuel)), Z.pow_succ_r in Hu by lia. lia.
Qed.

Lemma fuel_suffices u : (0 <= u)%Z -> (u < 10 ^ Z.of_nat (S (Z.to_nat (Z.log2 u))))%Z.
Proof.
  intros Hu. pose proof (Z.log2_nonneg u) as Hlog.
  rewrite Nat2Z.inj_succ, Z2Nat.id by done.
  destruct (Z.eq_dec u 0%Z) as [-> | Hne].
  - change (Z.log2 0) with 0%Z. lia.
  - pose proof (Z.log2_spec u ltac:(lia)) as [_ Hlt].
    eapply Z.lt_le_trans; [exact Hlt |].
    apply Z.pow_le_mono_l. lia.
Qed.

Lemma formatBits_head fuel u acc :
  (0 <= u)%Z ->
  exists d s, (0 <= d < 10)%Z /\ formatBits (S fuel) u acc = String (digit d) s.
Proof.
  revert u acc. induction fuel as [|fuel IH]; intros u acc Hu.
  - exists (u mod 10)%Z. simpl. destruct (u <? 10)%Z; eexists;
      (split; [apply Z.mod_pos_bound; lia | done]).
  - change (formatBits (S (S fuel)) u acc)
      with (if (u <? 10)%Z then String (digit (u mod 10)) acc
            else formatBits (S fuel) (u / 10) (String (digit (u mod 10)) acc)).
    destruct (u <? 10)%Z.
    + exists (u mod 10)%Z. eexists. split; [apply Z.mod_pos_bound; lia | done].
    + apply IH. apply Z.div_pos; lia.
Qed.

Lemma decimal_value_digit d s :
  (0 <= d < 10)%Z ->
  decimal_value (String (digit d) s) = decimal_from 0 (String (digit d) s).
Proof.
  intros Hd.
  assert (d = 0 \/ d = 1 \/ d = 2 \/ d = 3 \/ d = 4 \/ d = 5 \/ d = 6 \/ d = 7
          \/ d = 8 \/ d = 9)%Z as Hcases by lia.
  repeat (destruct Hcases as [-> | Hcases]; [reflexivity |]). by subst.
Qed.

Lemma Itoa_value i : decimal_value (Itoa i) = i.
Proof.
  unfold Itoa. destruct (i <? 0)%Z eqn:Hneg.
  - apply Z.ltb_lt in Hneg. unfold decimal_value.
    rewrite formatBits_value by (split; [lia | apply fuel_suffices; lia]).
    simpl. lia.
  - apply Z.ltb_ge in Hneg.
    destruct (formatBits_head (Z.to_nat (Z.log2 i)) i "" Hneg) as (d & s & Hd & Hs).
    rewrite Hs, decimal_value_digit, <-Hs by done.
    rewrite formatBits_value by (split; [lia | by apply fuel_suffices]). simpl. lia.
Qed.

Lemma Itoa_inj i j : Itoa i = Itoa j -> i = j.
Proof. intros H. by rewrite <-(Itoa_value i), <-(Itoa_value j), H. Qed.

End DecimalFacts.

(** X10.  The target address a client is made with is [localhost:<port>]
    with the port in decimal: splitting it at the colon gives the host and
    the digits back, the digits read as a decimal number are the port, and
    two ports never give the same address. *)
Theorem target_address_round_trip port timeoutSec now :
  let c := NewChromeDevToolsClient port timeoutSec now in
  Split (targetHostPort c) ":" = ["localhost"; GoStrconv.Itoa port]
  /\ decimal_value (GoStrconv.Itoa port) = port
  /\ (forall port' timeoutSec' now',
      targetHostPort (NewChromeDevToolsClient port' timeoutSec' now') = targetHostPort c ->
      port' = port).
Proof.
  intros c. split; [apply Split_localhost, Itoa_colon_free |].
  split; [apply Itoa_value |].
  intros port' timeoutSec' now' Heq. unfold c, NewChromeDevToolsClient in Heq.
  simpl in Heq. unfold GoNet.JoinHostPort in Heq.
  apply Itoa_inj. by simplify_eq.
Qed.

(** X12.  [main] gives the listener's read and write deadlines and the
    client's timeout the same duration.  For a [-timeout] of 0 to
    9223372036 seconds it is that many seconds in nanoseconds; from
    9223372037 on the multiplication wraps, up to 18446744073 to a negative
    duration. *)
Theorem timeouts_of_main f now :
  ReadTimeout (main f now) = clientTimeout (Handler (main f now))
  /\ WriteTimeout (main f now) = clientTimeout (Handler (main f now))
  /\ ((0 <= timeout f <= 9223372036)%Z ->
      clientTimeout (Handler (main f now)) = (timeout f * 1000000000)%Z)
  /\ ((9223372037 <= timeout f <= 18446744073)%Z ->
      (clientTimeout (Handler (main f now)) < 0)%Z).
Proof.
  split; [done |]. split; [done |]. simpl. unfold int64_wrap. split.
  - intros Ht. rewrite Z.mod_small by lia. lia.
  - intros Ht.
    assert ((timeout f * 1000000000 + 2 ^ 63) mod 2 ^ 64
            = timeout f * 1000000000 + 2 ^ 63 - 2 ^ 64)%Z as ->.
    { symmetry. apply (Z.mod_unique_pos _ _ 1); lia. }
    lia.
Qed.

Lemma timeouts_of_main_witness :
  clientTimeout (Handler (main defaultFlags 0)) = 30000000000%Z
  /\ (clientTimeout (Handler (main {| targetPort := 9222; listenPort := 9223;
                                      enableDebug := true; timeout := 9223372037 |} 0)) < 0)%Z.
Proof.
  destruct (timeouts_of_main defaultFlags 0) as (_ & _ & Hexact & _).
  destruct (timeouts_of_main {| targetPort := 9222; listenPort := 9223;
                                enableDebug := true; timeout := 9223372037 |} 0)
    as (_ & _ & _ & Hwrap).
  split; [apply Hexact; simpl; lia | apply Hwrap; simpl; lia].
Defined.

Section RaceInvariant.
Import Race.
Implicit Types gs : list goroutine.

Lemma counted_le_length gs : (counted gs <= length gs)%nat.
Proof. induction gs as [|[] gs IH]; simpl; lia. Qed.

Lemma counted_insert_Counted gs i g :
  gs !! i = Some g -> g <> Counted ->
  counted (<[i := Counted]> gs) = S (counted gs).
Proof.
  revert i. induction gs as [|g' gs IH]; intros [|i] Hi Hg; simpl in *; try done.
  - injection Hi as ->. by destruct g.
  - specialize (IH i Hi Hg). destruct g'; simpl; lia.
Qed.

Lemma counted_insert_AtStore gs i tmp :
  gs !! i = Some AtLoad -> counted (<[i := AtStore tmp]> gs) = counted gs.
Proof.
  revert i. induction gs as [|g' gs IH]; intros [|i] Hi; simpl in *; try done.
  - by injection Hi as ->.
  - specialize (IH i Hi). destruct g'; simpl; lia.
Qed.

Lemma counted_lt_length gs i g :
  gs !! i = Some g -> g <> Counted -> (counted gs < length gs)%nat.
Proof.
  revert i. induction gs as [|g' gs IH]; intros [|i] Hi Hg; simpl in *; try done.
  - injection Hi as ->. pose proof (counted_le_length gs). destruct g; [lia | lia | done].
  - specialize (IH i Hi Hg). destruct g'; simpl; lia.
Qed.

Lemma step_length st i : length (step st i).2 = length st.2.
Proof.
  unfold step. destruct (st.2 !! i) as [[]|]; simpl; by rewrite ?length_insert.
Qed.

Lemma step_invariant n st i :
  (- 2 ^ 63 <= n)%Z -> (n + Z.of_nat (length st.2) < 2 ^ 63)%Z ->
  race_invariant n st -> race_invariant n (step st i).
Proof.
  intros Hmin Hmax (Hshared & Hread & Habove). destruct st as [shared gs]. simpl in *.
  unfold step. simpl. destruct (gs !! i) as [[|tmp|]|] eqn:Hi; [| | done | done].
  - (* the read *)
    unfold race_invariant. simpl. rewrite (counted_insert_AtStore _ _ _ Hi).
    split; [done |]. split; [| done].
    apply Forall_insert; [done |]. by intros ? [= <-].
  - (* the write *)
    pose proof (counted_lt_length _ _ _ Hi ltac:(done)) as Hlt.
    assert (n <= tmp <= n + Z.of_nat (counted gs))%Z as Htmp.
    { rewrite Forall_lookup in Hread. by apply (Hread i _ Hi). }
    unfold race_invariant. simpl.
    rewrite (counted_insert_Counted _ _ _ Hi) by done.
    rewrite int64_incr_below by lia.
    split; [lia |]. split; [| lia].
    apply Forall_insert; [| done].
    eapply Forall_impl; [exact Hread |]. intros g Hg tmp' ->.
    specialize (Hg tmp' eq_refl). lia.
Qed.

Lemma run_invariant n schedule st :
  (- 2 ^ 63 <= n)%Z -> (n + Z.of_nat (length st.2) < 2 ^ 63)%Z ->
  race_invariant n st ->
  race_invariant n (run schedule st) /\ length (run schedule st).2 = length st.2.
Proof.
  intros Hmin. revert st. induction schedule as [|i schedule IH]; intros st Hmax Hinv.
  - done.
  - destruct (IH (step st i)) as [Hinv' Hlen'].
    + by rewrite step_length.
    + by apply step_invariant.
    + split; [exact Hinv' |]. unfold run in *. simpl. by rewrite Hlen', step_length.
Qed.

Lemma arrivals_invariant n k : race_invariant n (n, arrivals k).
Proof.
  assert (counted (arrivals k) = 0%nat) as Hzero.
  { unfold arrivals. induction k as [|k IH]; simpl; done. }
  unfold race_invariant. simpl. rewrite Hzero. split; [lia |]. split; [| lia].
  apply Forall_forall. intros g Hg tmp ->.
  unfold arrivals in Hg. by apply elem_of_replicate in Hg as [? _].
Qed.

End RaceInvariant.

(** X13.  Under every schedule of [k] concurrent requests, the counter never
    counts more requests than have passed their increment, never falls below
    its start, and is above its start as soon as one request has passed
    (the counter started at [n], with room for [k] increments before it
    wraps). *)
Theorem racing_counter_never_overcounts n k schedule :
  (- 2 ^ 63 <= n)%Z -> (n + Z.of_nat k < 2 ^ 63)%Z ->
  let st := Race.run schedule (n, Race.arrivals k) in
  (n <= st.1 <= n + Z.of_nat (counted st.2))%Z
  /\ (counted st.2 <= k)%nat
  /\ ((1 <= counted st.2)%nat -> (n + 1 <= st.1)%Z).
Proof.
  intros Hmin Hmax st.
  destruct (run_invariant n schedule (n, Race.arrivals k)) as [(H1 & _ & H3) Hlen].
  - done.
  - simpl. unfold Race.arrivals. by rewrite length_replicate.
  - apply arrivals_invariant.
  - split; [exact H1 |]. split; [| exact H3].
    pose proof (counted_le_length (Race.run schedule (n, Race.arrivals k)).2) as Hle.
    rewrite Hlen in Hle. simpl in Hle. unfold Race.arrivals in Hle.
    by rewrite length_replicate in Hle.
Qed.

Lemma racing_counter_never_overcounts_witness :
  (0 <= (Race.run [0; 1; 2; 1; 0; 2]%nat (0%Z, Race.arrivals 3)).1
   <= 0 + Z.of_nat (counted (Race.run [0; 1; 2; 1; 0; 2]%nat (0%Z, Race.arrivals 3)).2))%Z
  /\ (counted (Race.run [0; 1; 2; 1; 0; 2]%nat (0%Z, Race.arrivals 3)).2 <= 3)%nat
  /\ ((1 <= counted (Race.run [0; 1; 2; 1; 0; 2]%nat (0%Z, Race.arrivals 3)).2)%nat ->
      (0 + 1 <= (Race.run [0; 1; 2; 1; 0; 2]%nat (0%Z, Race.arrivals 3)).1)%Z).
Proof.
  apply (racing_counter_never_overcounts 0 3 [0; 1; 2; 1; 0; 2]%nat); [lia | simpl; lia].
Defined.
